(** * VFIO device driver of the Kata Containers runtime

    A shallow embedding of [src/runtime/pkg/device/drivers/vfio.go]:
    the group-member resolver [GetVFIODetails], the attach/detach state
    machine of [VFIODevice], its persistence ([Save]/[Load]) and the host
    driver rebind protocol ([BindDevicetoVFIO]/[BindDevicetoHost]).

    Go strings are byte strings and are modelled by [string]; a Go [error]
    is an opaque message, [None] standing for [nil]. *)

From Stdlib Require Import String Ascii List ZArith Lia DecimalString.
From stdpp Require Import base option list gmap strings.

Open Scope string_scope.

(** ** The Go library functions the driver calls *)

Module GoLib.

(** A Go [error]; [None : option error] is [nil]. *)
Definition error := string.

(** [fmt.Errorf] with the message already formatted. *)
Definition Errorf (msg : string) : error := msg.

(** [strings.Index(s, sep)] for a one-byte separator, returned as the
    text before and after the first occurrence. *)
Fixpoint Cut (sep : ascii) (s : string) : option (string * string) :=
  match s with
  | EmptyString => None
  | String c rest =>
      if Ascii.eqb c sep then Some (EmptyString, rest)
      else match Cut sep rest with
           | Some (a, b) => Some (String c a, b)
           | None => None
           end
  end.

(** [strings.Count(s, sep)] for a one-byte separator. *)
Fixpoint Count (sep : ascii) (s : string) : nat :=
  match s with
  | EmptyString => 0
  | String c rest => ((if Ascii.eqb c sep then 1 else 0) + Count sep rest)%nat
  end.

(** The loop of [genSplit]: at most [cuts] cuts, the rest in one piece. *)
Fixpoint splitLoop (cuts : nat) (sep : ascii) (s : string) : list string :=
  match cuts with
  | O => [s]
  | S cuts' =>
      match Cut sep s with
      | None => [s]
      | Some (a, rest) => a :: splitLoop cuts' sep rest
      end
  end.

(** [strings.SplitN(s, sep, n)] for a one-byte separator (the driver
    only splits on "/" and ":"): [n = 0] gives no token, [n < 0] all of
    them, [n > 0] at most [n] with the last one unsplit. *)
Definition SplitN (s : string) (sep : ascii) (n : Z) : list string :=
  if (n =? 0)%Z then []
  else
    let n1 := if (n <? 0)%Z then (Count sep s + 1)%nat else Z.to_nat n in
    let n2 := if (String.length s + 1 <? n1)%nat then (String.length s + 1)%nat else n1 in
    splitLoop (n2 - 1)%nat sep s.

(** All the fields of [s] between separators, by recursion on [s]. *)
Fixpoint fields (sep : ascii) (s : string) : list string :=
  match s with
  | EmptyString => [EmptyString]
  | String c rest =>
      if Ascii.eqb c sep then EmptyString :: fields sep rest
      else match fields sep rest with
           | h :: t => String c h :: t
           | [] => [String c EmptyString]
           end
  end.

(** [strings.Join(elems, sep)]. *)
Fixpoint JoinStrings (elems : list string) (sep : string) : string :=
  match elems with
  | [] => ""
  | [e] => e
  | e :: rest => e +:+ sep +:+ JoinStrings rest sep
  end.

Definition slash : ascii := "/"%char.

(** The element loop of [filepath.Clean] on a Unix path, run over the
    "/"-separated elements; [out] is the output so far, last element
    first.  Empty and "." elements are skipped; ".." removes the last
    real element, is kept in front of a relative path and dropped at the
    root. *)
Fixpoint cleanElems (rooted : bool) (elems out : list string) : list string :=
  match elems with
  | [] => rev out
  | e :: rest =>
      if String.eqb e "" || String.eqb e "." then cleanElems rooted rest out
      else if String.eqb e ".." then
        match out with
        | top :: out' =>
            if String.eqb top ".." then cleanElems rooted rest (e :: out)
            else cleanElems rooted rest out'
        | [] => if rooted then cleanElems rooted rest out
                else cleanElems rooted rest [e]
        end
      else cleanElems rooted rest (e :: out)
  end.

(** [filepath.Clean] (Unix). *)
Definition Clean (path : string) : string :=
  match path with
  | EmptyString => "."
  | String c _ =>
      let rooted := Ascii.eqb c slash in
      let body := JoinStrings (cleanElems rooted (fields slash path) []) "/" in
      if rooted then "/" +:+ body
      else if String.eqb body "" then "." else body
  end.

(** [filepath.Join]: the elements from the first non-empty one on are
    joined with "/" and cleaned; no such element gives "". *)
Fixpoint Join (elem : list string) : string :=
  match elem with
  | [] => ""
  | e :: rest =>
      if String.eqb e "" then Join rest
      else Clean (JoinStrings elem "/")
  end.

(** The first loop of [filepath.Base]: trailing slashes are removed. *)
Fixpoint stripTrailingSlashes (path : string) : string :=
  match path with
  | EmptyString => EmptyString
  | String c rest =>
      let rest' := stripTrailingSlashes rest in
      if Ascii.eqb c slash && String.eqb rest' "" then EmptyString
      else String c rest'
  end.

(** [filepath.Base] (Unix). *)
Definition Base (path : string) : string :=
  if String.eqb path "" then "."
  else
    let p := stripTrailingSlashes path in
    if String.eqb p "" then "/"
    else List.last (fields slash p) "".

(** The verb [%d] of [fmt.Sprintf] on a non-negative [int]. *)
Definition itoa (n : nat) : string := NilZero.string_of_uint (Nat.to_uint n).

End GoLib.

Import GoLib.

(** ** Package [config]: the types and tables the driver works on *)

Module Config.

(** Modelled from the spec: the type tag of a group member, declared in
    package [config] which is not part of the sources at hand.  The spec
    names the three kinds PCI-normal, PCI-mediated and AP-mediated;
    [VFIODeviceErrorType] is the zero value of the Go type and stands
    for every tag that the [switch] statements do not list. *)
Inductive VFIODeviceType : Type :=
| VFIODeviceErrorType
| VFIOPCIDeviceNormalType
| VFIOPCIDeviceMediatedType
| VFIOAPDeviceMediatedType.

(** A PCIe port identifier, key of the slot registry. *)
Definition PCIePort := string.

(** Modelled from the spec: one function of a group ([config.VFIODev]),
    with the fields the spec lists and the driver reads or writes. *)
Record VFIODev : Type := mkVFIODev {
  ID : string;
  Type_ : VFIODeviceType;
  BDF : string;
  SysfsDev : string;
  IsPCIe : bool;
  Port : PCIePort;
  Bus : string
}.

(** The Go zero value of [VFIODev]. *)
Definition zeroVFIODev : VFIODev :=
  {| ID := ""; Type_ := VFIODeviceErrorType; BDF := ""; SysfsDev := "";
     IsPCIe := false; Port := ""; Bus := "" |}.

(** Modelled from the spec: [config.DeviceInfo], the external input. *)
Record DeviceInfo : Type := mkDeviceInfo {
  InfoID : string;
  HostPath : string;
  ColdPlug : bool
}.

(** Modelled from the spec: the persisted [config.DeviceState], a
    device-kind tag and the ordered list of member records, embedded in
    the generic device's persisted state.  A [None] in a list of members
    is a nil pointer. *)
Record DeviceState : Type := mkDeviceState {
  StateID : string;
  StateType : string;
  StateAttachCount : nat;
  StateInfo : DeviceInfo;
  VFIODevs : list (option VFIODev)
}.

(** The occupied BDFs of one port ([map[string]bool]). *)
Abbreviation bitmap := (gmap string bool).

(** What package [drivers] takes from outside [vfio.go]: a path, the
    device-kind tag, the prefix table of the ports, the classifier, the
    symlink resolver and the group enumeration.  A call of one of the
    functions returns its Go result pair. *)
Record Env : Type := mkEnv {
  SysBusPciDevicesPath : string;
  DeviceVFIO : string;
  PCIePortPrefixMapping : gmap PCIePort string;
  GetVFIODeviceType : string -> VFIODeviceType * option error;
  GetSysfsDev : string -> string * option error;
  GetAllVFIODevicesFromIOMMUGroup : DeviceInfo -> list (option VFIODev) * option error
}.

End Config.

Import Config.

(** ** Package [drivers] *)

Module Drivers.

(** *** Group-member resolution *)

(** [getMediatedBDF]: the second-to-last "/"-token; the guard keeps the
    index in range. *)
Definition getMediatedBDF (deviceSysfsDev : string) : string :=
  let tokens := SplitN deviceSysfsDev slash (-1) in
  if (length tokens <? 4)%nat then ""
  else default "" (tokens !! (length tokens - 2)%nat).

(** [GetBDF]: what follows the first ":"; nothing when there is none. *)
Definition GetBDF (deviceSysStr : string) : string :=
  let tokens := SplitN deviceSysStr ":"%char 2 in
  if (length tokens =? 1)%nat then ""
  else default "" (tokens !! 1%nat).

(** [GetVFIODetails]: the four results
    [(deviceBDF, deviceSysfsDev, vfioDeviceType, err)]. *)
Definition GetVFIODetails (env : Env) (deviceFileName iommuDevicesPath : string)
  : string * string * VFIODeviceType * option error :=
  let sysfsDevStr := Join [iommuDevicesPath; deviceFileName] in
  let '(vfioDeviceType, err) := GetVFIODeviceType env sysfsDevStr in
  match err with
  | Some e => ("", "", vfioDeviceType, Some e)
  | None =>
      match vfioDeviceType with
      | VFIOPCIDeviceNormalType =>
          (deviceFileName,
           Join [SysBusPciDevicesPath env; deviceFileName],
           vfioDeviceType, None)
      | VFIOPCIDeviceMediatedType =>
          let sysfsDevStr := Join [iommuDevicesPath; deviceFileName] in
          let '(deviceSysfsDev, err) := GetSysfsDev env sysfsDevStr in
          (GetBDF (getMediatedBDF deviceSysfsDev), deviceSysfsDev,
           vfioDeviceType, err)
      | VFIOAPDeviceMediatedType =>
          let sysfsDevStr := Join [iommuDevicesPath; deviceFileName] in
          let '(deviceSysfsDev, err) := GetSysfsDev env sysfsDevStr in
          ("", deviceSysfsDev, vfioDeviceType, err)
      | _ =>
          ("", "", vfioDeviceType,
           Some (Errorf ("Incorrect tokens found while parsing vfio details: "
                         +:+ deviceFileName)))
      end
  end.

(** *** The generic device and its attach-count gate *)

(** Modelled from the spec: the base [GenericDevice] of generic.go, which
    is not among the sources: identity, [DeviceInfo] and the attach
    reference count. *)
Record GenericDevice : Type := mkGenericDevice {
  DevID : string;
  Info : DeviceInfo;
  AttachCount : nat
}.

Definition setAttachCount (g : GenericDevice) (n : nat) : GenericDevice :=
  {| DevID := DevID g; Info := Info g; AttachCount := n |}.

(** Modelled from the spec: [bumpAttachCount] of generic.go (section 4.1).
    On increment the count rises by one and the real attach is skipped
    when the resulting count is greater than one; on decrement the count
    falls by one and the real detach is skipped when it remains greater
    than zero; decrementing below zero fails without mutating the count.
    The result is [(device, skip, err)]; the callers read [skip] only
    when [err] is nil. *)
Definition bumpAttachCount (g : GenericDevice) (attach : bool)
  : GenericDevice * bool * option error :=
  if attach then
    (setAttachCount g (S (AttachCount g)), (1 <? S (AttachCount g))%nat, None)
  else
    match AttachCount g with
    | O => (g, true, Some (Errorf "detaching a device that wasn't attached"))
    | S n => (setAttachCount g n, (0 <? n)%nat, None)
    end.

(** Modelled from the spec: [GenericDevice.Save] of generic.go, the
    generic part of the persisted state; it holds no member record, and
    the kind tag is set by the driver's own [Save]. *)
Definition GenericSave (g : GenericDevice) : DeviceState :=
  {| StateID := DevID g; StateType := ""; StateAttachCount := AttachCount g;
     StateInfo := Info g; VFIODevs := [] |}.

(** Modelled from the spec: [GenericDevice.Load] of generic.go. *)
Definition GenericLoad (ds : DeviceState) : GenericDevice :=
  {| DevID := StateID ds; Info := StateInfo ds;
     AttachCount := StateAttachCount ds |}.

(** *** The VFIO device *)

(** [VFIODevice]: the embedded generic device and the members of the
    IOMMU group, a slice of pointers ([None] is nil). *)
Record VFIODevice : Type := mkVFIODevice {
  Generic : GenericDevice;
  VfioDevs : list (option VFIODev)
}.

Definition setGeneric (device : VFIODevice) (g : GenericDevice) : VFIODevice :=
  {| Generic := g; VfioDevs := VfioDevs device |}.

Definition setVfioDevs (device : VFIODevice) (devs : list (option VFIODev)) : VFIODevice :=
  {| Generic := Generic device; VfioDevs := devs |}.

(** [NewVFIODevice]. *)
Definition NewVFIODevice (devInfo : DeviceInfo) : VFIODevice :=
  {| Generic := {| DevID := InfoID devInfo; Info := devInfo; AttachCount := 0 |};
     VfioDevs := [] |}.

(** [api.DeviceReceiver], the three operations the driver calls; each
    returns the receiver's next state and the Go [error].  A receiver
    does not write to the device it is handed. *)
Class DeviceReceiver (R : Type) : Type := {
  AppendDevice : VFIODevice -> R -> R * option error;
  HotplugAddDevice : VFIODevice -> string -> R -> R * option error;
  HotplugRemoveDevice : VFIODevice -> string -> R -> R * option error
}.

(** The calls a run of [Attach] or [Detach] makes, for the record. *)
Inductive Call : Type :=
| CallBump (attach : bool)
| CallAppendDevice
| CallHotplugAddDevice
| CallHotplugRemoveDevice.

(** What lives outside the device: the process-wide slot registry
    [config.PCIeDevices], the receiver and the record of calls, oldest
    first. *)
Record World (R : Type) : Type := mkWorld {
  PCIeDevices : gmap PCIePort bitmap;
  receiver : R;
  calls : list Call
}.
Arguments mkWorld {R} _ _ _.
Arguments PCIeDevices {R} _.
Arguments receiver {R} _.
Arguments calls {R} _.

Definition logCall {R} (c : Call) (w : World R) : World R :=
  {| PCIeDevices := PCIeDevices w; receiver := receiver w;
     calls := (calls w ++ [c])%list |}.

Definition setRegistry {R} (w : World R) (reg : gmap PCIePort bitmap) : World R :=
  {| PCIeDevices := reg; receiver := receiver w; calls := calls w |}.

Definition setReceiver {R} (w : World R) (r : R) : World R :=
  {| PCIeDevices := PCIeDevices w; receiver := r; calls := calls w |}.

Definition setBus (vfio : VFIODev) (bus : string) : VFIODev :=
  {| ID := ID vfio; Type_ := Type_ vfio; BDF := BDF vfio;
     SysfsDev := SysfsDev vfio; IsPCIe := IsPCIe vfio; Port := Port vfio;
     Bus := bus |}.

(** The loop of [Attach] over the members.  [None] is a Go panic: a nil
    member is dereferenced, or the port has no set in the registry and
    the assignment writes to a nil map. *)
Fixpoint assignBuses (env : Env) (devs : list (option VFIODev))
    (reg : gmap PCIePort bitmap)
  : option (list (option VFIODev) * gmap PCIePort bitmap) :=
  match devs with
  | [] => Some ([], reg)
  | None :: _ => None
  | Some vfio :: rest =>
      if IsPCIe vfio then
        let busIndex := size (default ∅ (reg !! Port vfio)) in
        let vfio' :=
          setBus vfio (default "" (PCIePortPrefixMapping env !! Port vfio)
                       +:+ itoa busIndex) in
        match reg !! Port vfio with
        | None => None
        | Some occupied =>
            match assignBuses env rest
                    (<[Port vfio := <[BDF vfio := true]> occupied]> reg) with
            | Some (rest', reg') => Some (Some vfio' :: rest', reg')
            | None => None
            end
        end
      else
        match assignBuses env rest reg with
        | Some (rest', reg') => Some (Some vfio :: rest', reg')
        | None => None
        end
  end.

(** Two members that differ at most in the bus label. *)
Definition sameMember (a b : option VFIODev) : Prop :=
  match a, b with
  | Some x, Some y => y = setBus x (Bus y)
  | None, None => True
  | _, _ => False
  end.

(** The deferred function of [Attach] and [Detach]: on an error the
    inverse bump is made. *)
Definition compensate {R} (inverse : bool) (device : VFIODevice) (w : World R)
    (retErr : option error) : VFIODevice * World R * option error :=
  match retErr with
  | Some _ =>
      let '(g, _, _) := bumpAttachCount (Generic device) inverse in
      (setGeneric device g, logCall (CallBump inverse) w, retErr)
  | None => (device, w, retErr)
  end.

(** [VFIODevice.Attach]; [None] is a panic. *)
Definition Attach {R} `{DeviceReceiver R} (env : Env) (device : VFIODevice)
    (w : World R) : option (VFIODevice * World R * option error) :=
  let '(g, skip, err) := bumpAttachCount (Generic device) true in
  let device := setGeneric device g in
  let w := logCall (CallBump true) w in
  match err with
  | Some e => Some (device, w, Some e)
  | None =>
      if skip then Some (device, w, None)
      else
        let '(devs, err) := GetAllVFIODevicesFromIOMMUGroup env (Info (Generic device)) in
        let device := setVfioDevs device devs in
        match err with
        | Some e => Some (compensate false device w (Some e))
        | None =>
            match assignBuses env devs (PCIeDevices w) with
            | None => None
            | Some (devs', reg) =>
                let device := setVfioDevs device devs' in
                let w := setRegistry w reg in
                if ColdPlug (Info (Generic device)) then
                  let '(r, err) := AppendDevice device (receiver w) in
                  let w := logCall CallAppendDevice (setReceiver w r) in
                  Some (compensate false device w err)
                else
                  let '(r, err) :=
                    HotplugAddDevice device (DeviceVFIO env) (receiver w) in
                  let w := logCall CallHotplugAddDevice (setReceiver w r) in
                  Some (compensate false device w err)
            end
        end
  end.

(** [VFIODevice.Detach]. *)
Definition Detach {R} `{DeviceReceiver R} (env : Env) (device : VFIODevice)
    (w : World R) : VFIODevice * World R * option error :=
  let '(g, skip, err) := bumpAttachCount (Generic device) false in
  let device := setGeneric device g in
  let w := logCall (CallBump false) w in
  match err with
  | Some e => (device, w, Some e)
  | None =>
      if skip then (device, w, None)
      else if ColdPlug (Info (Generic device)) then
        compensate true device w None
      else
        let '(r, err) :=
          HotplugRemoveDevice device (DeviceVFIO env) (receiver w) in
        let w := logCall CallHotplugRemoveDevice (setReceiver w r) in
        compensate true device w err
  end.

(** [VFIODevice.DeviceType]. *)
Definition DeviceType (env : Env) (device : VFIODevice) : string := DeviceVFIO env.

(** [VFIODevice.GetDeviceInfo]. *)
Definition GetDeviceInfo (device : VFIODevice) : list (option VFIODev) :=
  VfioDevs device.

(** *** Persistence *)

Definition appendRecord (ds : DeviceState) (dev : option VFIODev) : DeviceState :=
  {| StateID := StateID ds; StateType := StateType ds;
     StateAttachCount := StateAttachCount ds; StateInfo := StateInfo ds;
     VFIODevs := (VFIODevs ds ++ [dev])%list |}.

Definition setStateType (ds : DeviceState) (ty : string) : DeviceState :=
  {| StateID := StateID ds; StateType := ty;
     StateAttachCount := StateAttachCount ds; StateInfo := StateInfo ds;
     VFIODevs := VFIODevs ds |}.

(** The loop of [Save]: the non-nil members are appended in order. *)
Fixpoint saveLoop (devs : list (option VFIODev)) (ds : DeviceState) : DeviceState :=
  match devs with
  | [] => ds
  | Some dev :: rest => saveLoop rest (appendRecord ds (Some dev))
  | None :: rest => saveLoop rest ds
  end.

(** [VFIODevice.Save]. *)
Definition Save (env : Env) (device : VFIODevice) : DeviceState :=
  let ds := GenericSave (Generic device) in
  let ds := setStateType ds (DeviceVFIO env) in
  saveLoop (VfioDevs device) ds.

(** The [switch] of [Load] on one record: the member it builds, or [None]
    for a type that is not listed.  A PCI member keeps ID, type, BDF and
    sysfs path; an AP-mediated member keeps ID and sysfs path only; every
    other field is left at its zero value. *)
Definition loadRecord (dev : VFIODev) : option VFIODev :=
  match Type_ dev with
  | VFIOPCIDeviceNormalType | VFIOPCIDeviceMediatedType =>
      Some {| ID := ID dev; Type_ := Type_ dev; BDF := BDF dev;
              SysfsDev := SysfsDev dev; IsPCIe := false; Port := "";
              Bus := "" |}
  | VFIOAPDeviceMediatedType =>
      Some {| ID := ID dev; Type_ := VFIODeviceErrorType; BDF := "";
              SysfsDev := SysfsDev dev; IsPCIe := false; Port := "";
              Bus := "" |}
  | _ => None
  end.

(** The loop of [Load], with the errors it logs, oldest first.  A record
    of an unlisted type is logged and ends the whole load ([return]).
    [None] is the panic on a nil record. *)
Fixpoint loadLoop (records : list (option VFIODev)) (device : VFIODevice)
    (logged : list error) : option (VFIODevice * list error) :=
  match records with
  | [] => Some (device, logged)
  | None :: _ => None
  | Some dev :: rest =>
      match loadRecord dev with
      | Some vfio =>
          loadLoop rest
            (setVfioDevs device (VfioDevs device ++ [Some vfio])%list) logged
      | None =>
          Some (device, (logged ++ [Errorf "VFIO device type unrecognized"])%list)
      end
  end.

(** [VFIODevice.Load]: the generic part is replaced, the members are
    appended to the ones the receiver of the call already holds. *)
Definition Load (device : VFIODevice) (ds : DeviceState)
  : option (VFIODevice * list error) :=
  loadLoop (VFIODevs ds) (setGeneric device (GenericLoad ds)) [].

(** *** Host driver rebind *)

Definition pciDriverUnbindPath (bdf : string) : string :=
  "/sys/bus/pci/devices/" +:+ bdf +:+ "/driver/unbind".
Definition pciDriverBindPath (driver : string) : string :=
  "/sys/bus/pci/drivers/" +:+ driver +:+ "/bind".
Definition vfioNewIDPath : string := "/sys/bus/pci/drivers/vfio-pci/new_id".
Definition vfioRemoveIDPath : string := "/sys/bus/pci/drivers/vfio-pci/remove_id".
Definition iommuGroupPath (bdf : string) : string :=
  "/sys/bus/pci/devices/" +:+ bdf +:+ "/iommu_group".
Definition vfioDevPath (group : string) : string := "/dev/vfio/" +:+ group.
Definition vfioAPSysfsDir : string := "/sys/devices/vfio_ap".

(** The host file system as the rebind functions use it:
    [utils.WriteToFile] and [os.Readlink]. *)
Class Sysfs (S : Type) : Type := {
  WriteToFile : string -> string -> S -> S * option error;
  Readlink : string -> S -> string * option error
}.

(** The file system and the writes made so far, oldest first. *)
Record Host (S : Type) : Type := mkHost {
  sysfs : S;
  writes : list (string * string)
}.
Arguments mkHost {S} _ _.
Arguments sysfs {S} _.
Arguments writes {S} _.

Definition write {S} `{Sysfs S} (path data : string) (h : Host S)
  : Host S * option error :=
  let '(s, err) := WriteToFile path data (sysfs h) in
  ({| sysfs := s; writes := (writes h ++ [(path, data)])%list |}, err).

(** [BindDevicetoVFIO]. *)
Definition BindDevicetoVFIO {S} `{Sysfs S} (bdf hostDriver vendorDeviceID : string)
    (h : Host S) : Host S * (string * option error) :=
  let unbindDriverPath := pciDriverUnbindPath bdf in
  let '(h, err) := write unbindDriverPath bdf h in
  match err with
  | Some e => (h, ("", Some e))
  | None =>
      let '(h, err) := write vfioNewIDPath vendorDeviceID h in
      match err with
      | Some e => (h, ("", Some e))
      | None =>
          let bindDriverPath := pciDriverBindPath "vfio-pci" in
          let '(h, _) := write bindDriverPath bdf h in
          let '(groupPath, err) := Readlink (iommuGroupPath bdf) (sysfs h) in
          match err with
          | Some e => (h, ("", Some e))
          | None => (h, (vfioDevPath (Base groupPath), None))
          end
      end
  end.

(** [BindDevicetoHost]. *)
Definition BindDevicetoHost {S} `{Sysfs S} (bdf hostDriver vendorDeviceID : string)
    (h : Host S) : Host S * option error :=
  let unbindDriverPath := pciDriverUnbindPath bdf in
  let '(h, err) := write unbindDriverPath bdf h in
  match err with
  | Some e => (h, Some e)
  | None =>
      let '(h, err) := write vfioRemoveIDPath vendorDeviceID h in
      match err with
      | Some e => (h, Some e)
      | None =>
          let bindDriverPath := pciDriverBindPath hostDriver in
          write bindDriverPath bdf h
      end
  end.

End Drivers.

Import Drivers.

(** ** Stand-ins for the collaborators, used to run the driver *)

Module Fixtures.

(** A host described by its symlinks and one IOMMU group.  A member
    file whose name has three ":"-tokens is a normal PCI function; any
    other must resolve, and is AP-mediated under [vfioAPSysfsDir]. *)
Definition fakeEnv (links : gmap string string) (group : list (option VFIODev)) : Env :=
  {| SysBusPciDevicesPath := "/sys/bus/pci/devices";
     DeviceVFIO := "vfio";
     PCIePortPrefixMapping := {[ "root-port" := "rp"; "switch-port" := "sw" ]};
     GetVFIODeviceType := fun path =>
       if (length (SplitN (Base path) ":"%char (-1)) =? 3)%nat
       then (VFIOPCIDeviceNormalType, None)
       else match links !! path with
            | Some real =>
                if String.prefix vfioAPSysfsDir real
                then (VFIOAPDeviceMediatedType, None)
                else (VFIOPCIDeviceMediatedType, None)
            | None => (VFIODeviceErrorType, Some (Errorf "no such file or directory"))
            end;
     GetSysfsDev := fun path =>
       match links !! path with
       | Some real => (real, None)
       | None => ("", Some (Errorf "no such file or directory"))
       end;
     GetAllVFIODevicesFromIOMMUGroup := fun _ => (group, None) |}.

Definition groupDir : string := "/sys/kernel/iommu_groups/7/devices".
Definition mdevName : string := "f79944e4-5a3d-11e8-99ce-479cbab002e4".
Definition mdevReal : string :=
  "/sys/devices/pci0000:00/0000:00:02.0/f79944e4-5a3d-11e8-99ce-479cbab002e4".

(** The mediated instance of the source comment. *)
Definition mdevEnv : Env :=
  fakeEnv {[ "/sys/kernel/iommu_groups/7/devices/f79944e4-5a3d-11e8-99ce-479cbab002e4" := mdevReal ]} [].

(** The same instance resolving to a path of three tokens. *)
Definition shortEnv : Env :=
  fakeEnv {[ "/sys/kernel/iommu_groups/7/devices/f79944e4-5a3d-11e8-99ce-479cbab002e4" := "/sys/devices" ]} [].

(** A receiver that answers each call with the next entry of a script,
    and with success once the script is used up. *)
Definition Script := list (option error).

Definition respond (r : Script) : Script * option error :=
  match r with
  | [] => ([], None)
  | e :: r' => (r', e)
  end.

#[export] Instance scriptedReceiver : DeviceReceiver Script :=
  {| AppendDevice := fun _ r => respond r;
     HotplugAddDevice := fun _ _ r => respond r;
     HotplugRemoveDevice := fun _ _ r => respond r |}.

(** A sysfs tree: file contents, the files that refuse a write, and the
    symlinks. *)
Record FakeSysfs : Type := mkFakeSysfs {
  files : gmap string string;
  refusing : list string;
  symlinks : gmap string string
}.

#[export] Instance fakeSysfs : Sysfs FakeSysfs :=
  {| WriteToFile := fun path data s =>
       if existsb (String.eqb path) (refusing s)
       then (s, Some (Errorf ("write " +:+ path +:+ ": permission denied")))
       else ({| files := <[path := data]> (files s); refusing := refusing s;
                symlinks := symlinks s |}, None);
     Readlink := fun path s =>
       match symlinks s !! path with
       | Some target => (target, None)
       | None => ("", Some (Errorf ("readlink " +:+ path +:+ ": no such file or directory")))
       end |}.

Definition member (id bdf : string) (pcie : bool) (port : PCIePort) : VFIODev :=
  {| ID := id; Type_ := VFIOPCIDeviceNormalType; BDF := bdf;
     SysfsDev := "/sys/bus/pci/devices/" +:+ bdf; IsPCIe := pcie; Port := port;
     Bus := "" |}.

Definition apMember (id : string) : VFIODev :=
  {| ID := id; Type_ := VFIOAPDeviceMediatedType; BDF := "";
     SysfsDev := "/sys/devices/vfio_ap/matrix/" +:+ mdevName; IsPCIe := false;
     Port := ""; Bus := "" |}.

Definition hotInfo : DeviceInfo :=
  {| InfoID := "dev0"; HostPath := "/dev/vfio/7"; ColdPlug := false |}.

Definition coldInfo : DeviceInfo :=
  {| InfoID := "dev1"; HostPath := "/dev/vfio/8"; ColdPlug := true |}.

(** A device whose group is attached once. *)
Definition attachedDevice (info : DeviceInfo) (devs : list (option VFIODev)) : VFIODevice :=
  {| Generic := {| DevID := InfoID info; Info := info; AttachCount := 1 |};
     VfioDevs := devs |}.

(** A host on which the group cannot be enumerated. *)
Definition unreadableEnv : Env :=
  {| SysBusPciDevicesPath := "/sys/bus/pci/devices";
     DeviceVFIO := "vfio";
     PCIePortPrefixMapping := ∅;
     GetVFIODeviceType := fun _ => (VFIODeviceErrorType, Some (Errorf "no such file or directory"));
     GetSysfsDev := fun _ => ("", Some (Errorf "no such file or directory"));
     GetAllVFIODevicesFromIOMMUGroup := fun _ =>
       ([], Some (Errorf "open /sys/kernel/iommu_groups/7/devices: no such file or directory")) |}.

(** A group of two plain PCI functions. *)
Definition pairEnv : Env :=
  fakeEnv ∅ [Some (member "vfio-dev00" "0000:02:10.0" false "");
             Some (member "vfio-dev01" "0000:02:10.1" false "")].

(** Three functions behind the root port and one behind the switch port. *)
Definition pcieEnv : Env :=
  fakeEnv ∅ [Some (member "vfio-dev00" "0000:3b:00.0" true "root-port");
             Some (member "vfio-dev01" "0000:3b:00.1" true "root-port");
             Some (member "vfio-dev02" "0000:3b:00.2" true "root-port");
             Some (member "vfio-dev03" "0000:5e:00.0" true "switch-port")].

(** The members of [pcieEnv] as a first [Attach] labels them, and the
    registry it leaves. *)
Definition pcieLabelled : list (option VFIODev) :=
  [Some (setBus (member "vfio-dev00" "0000:3b:00.0" true "root-port") "rp0");
   Some (setBus (member "vfio-dev01" "0000:3b:00.1" true "root-port") "rp1");
   Some (setBus (member "vfio-dev02" "0000:3b:00.2" true "root-port") "rp2");
   Some (setBus (member "vfio-dev03" "0000:5e:00.0" true "switch-port") "sw0")].

Definition pcieRegistry : gmap PCIePort bitmap :=
  {[ "root-port" := {[ "0000:3b:00.0" := true; "0000:3b:00.1" := true;
                       "0000:3b:00.2" := true ]};
     "switch-port" := {[ "0000:5e:00.0" := true ]} ]}.

Definition emptyRegistry : gmap PCIePort bitmap :=
  {[ "root-port" := ∅; "switch-port" := ∅ ]}.

Definition world0 (script : Script) : World Script :=
  {| PCIeDevices := emptyRegistry; receiver := script; calls := [] |}.

(** A host where the function 0000:02:10.0 is in IOMMU group 42. *)
Definition host0 (refused : list string) : Host FakeSysfs :=
  {| sysfs := {| files := ∅; refusing := refused;
                 symlinks := {[ "/sys/bus/pci/devices/0000:02:10.0/iommu_group"
                                := "../../../kernel/iommu_groups/42" ]} |};
     writes := [] |}.

End Fixtures.

Import Fixtures.

(** ** Predicates of the statements *)

(** A member the loop of [Attach] can handle with the ports [ports]: it
    is not nil, and if it is PCIe its port is one of them. *)
Definition wellPlaced (ports : gset PCIePort) (d : option VFIODev) : Prop :=
  match d with
  | Some vfio => IsPCIe vfio = true -> Port vfio ∈ ports
  | None => False
  end.

(** A member that is not nil and, if it is PCIe, whose BDF the registry
    already holds for its port. *)
Definition recorded (reg : gmap PCIePort bitmap) (d : option VFIODev) : Prop :=
  match d with
  | Some vfio =>
      IsPCIe vfio = true ->
      exists occupied, reg !! Port vfio = Some occupied /\
                       occupied !! BDF vfio = Some true
  | None => False
  end.

(** The member with the bus label made of its port's prefix and the
    present size of its port's set. *)
Definition relabel (env : Env) (reg : gmap PCIePort bitmap) (d : option VFIODev)
  : option VFIODev :=
  match d with
  | Some vfio =>
      Some (if IsPCIe vfio
            then setBus vfio (default "" (PCIePortPrefixMapping env !! Port vfio)
                              +:+ itoa (size (default ∅ (reg !! Port vfio))))
            else vfio)
  | None => None
  end.


(** A member of one of the two PCI types. *)
Definition isPCI (d : VFIODev) : Prop :=
  Type_ d = VFIOPCIDeviceNormalType \/ Type_ d = VFIOPCIDeviceMediatedType.

(** The receiver call of [Attach] for a device. *)
Definition attachCall (device : VFIODevice) : Call :=
  if ColdPlug (Info (Generic device)) then CallAppendDevice
  else CallHotplugAddDevice.

(** The receiver call of [Attach] for a device, run. *)
Definition callReceiver {R} `{DeviceReceiver R} (env : Env) (device : VFIODevice)
    (r : R) : R * option error :=
  if ColdPlug (Info (Generic device)) then AppendDevice device r
  else HotplugAddDevice device (DeviceVFIO env) r.

(** The three writes of [BindDevicetoVFIO], in order. *)
Definition claimWrites (bdf vendorDeviceID : string) : list (string * string) :=
  [(pciDriverUnbindPath bdf, bdf);
   (vfioNewIDPath, vendorDeviceID);
   (pciDriverBindPath "vfio-pci", bdf)].

(** The three writes of [BindDevicetoHost], in order. *)
Definition releaseWrites (bdf hostDriver vendorDeviceID : string)
  : list (string * string) :=
  [(pciDriverUnbindPath bdf, bdf);
   (vfioRemoveIDPath, vendorDeviceID);
   (pciDriverBindPath hostDriver, bdf)].

(** ** Theorems *)

Example SplitN_all : SplitN "/sys/devices" slash (-1) = [""; "sys"; "devices"].
Proof. reflexivity. Qed.

Example SplitN_two : SplitN "0000:02:10.0" ":"%char 2 = ["0000"; "02:10.0"].
Proof. reflexivity. Qed.

Example Join_two : Join ["/sys/bus/pci/devices"; "0000:02:10.0"] = "/sys/bus/pci/devices/0000:02:10.0".
Proof. reflexivity. Qed.

Example Join_clean : Join [""; "a//b/./c/.."; "../d/"] = "a/d".
Proof. reflexivity. Qed.

Example Base_group : Base "../../../kernel/iommu_groups/42" = "42".
Proof. reflexivity. Qed.

Example itoa_12 : itoa 12 = "12".
Proof. reflexivity. Qed.

Example getMediatedBDF_uuid :
  getMediatedBDF "/sys/devices/pci0000:00/0000:00:02.0/f79944e4-5a3d-11e8-99ce-479cbab002e4"
  = "0000:00:02.0".
Proof. reflexivity. Qed.

Example GetBDF_full : GetBDF "0000:00:02.0" = "00:02.0".
Proof. reflexivity. Qed.

(** *** Splitting *)

Section Splitting.

Variable sep : ascii.

Lemma Cut_None s : Cut sep s = None -> fields sep s = [s] /\ Count sep s = 0.
Proof.
  induction s as [|c r IH]; simpl; [done|].
  destruct (Ascii.eqb c sep); [done|].
  destruct (Cut sep r) as [[a b]|]; [done|].
  intros _. destruct (IH eq_refl) as [-> ->]. done.
Qed.

Lemma Cut_Some s a rest :
  Cut sep s = Some (a, rest) ->
  fields sep s = a :: fields sep rest /\ Count sep s = S (Count sep rest).
Proof.
  revert a. induction s as [|c r IH]; simpl; intros a; [done|].
  destruct (Ascii.eqb c sep).
  - intros [= <- <-]. done.
  - destruct (Cut sep r) as [[a' b]|]; [|done].
    intros [= <- <-]. destruct (IH a' eq_refl) as [-> ->]. done.
Qed.

Lemma splitLoop_fields n s : Count sep s <= n -> splitLoop n sep s = fields sep s.
Proof.
  revert s. induction n as [|n IH]; intros s Hn; simpl.
  - destruct (Cut sep s) as [[a rest]|] eqn:E.
    + apply Cut_Some in E as [_ E]. lia.
    + apply Cut_None in E as [-> _]. done.
  - destruct (Cut sep s) as [[a rest]|] eqn:E.
    + apply Cut_Some in E as [-> E]. rewrite IH; [done|lia].
    + apply Cut_None in E as [-> _]. done.
Qed.

Lemma Count_le_length s : Count sep s <= String.length s.
Proof. induction s as [|c r IH]; simpl; [lia|]. destruct (Ascii.eqb c sep); lia. Qed.

Lemma SplitN_all_fields s : SplitN s sep (-1) = fields sep s.
Proof.
  unfold SplitN. simpl. pose proof (Count_le_length s).
  destruct (Nat.ltb_spec (String.length s + 1) (Count sep s + 1)); [lia|].
  apply splitLoop_fields. lia.
Qed.

Lemma length_fields s : length (fields sep s) = S (Count sep s).
Proof.
  induction s as [|c r IH]; simpl; [done|].
  destruct (Ascii.eqb c sep); simpl; [by rewrite IH|].
  destruct (fields sep r); simpl in *; lia.
Qed.

Lemma fields_plain s : Count sep s = 0 -> fields sep s = [s].
Proof.
  induction s as [|c r IH]; simpl; [done|].
  destruct (Ascii.eqb c sep); [done|]. intros H. by rewrite IH.
Qed.

Lemma fields_app a b :
  fields sep (a +:+ String sep b) = (fields sep a ++ fields sep b)%list.
Proof.
  induction a as [|c r IH]; simpl.
  - by rewrite Ascii.eqb_refl.
  - destruct (Ascii.eqb c sep); [by rewrite IH|].
    rewrite IH. pose proof (length_fields r) as L.
    destruct (fields sep r); [done|]. done.
Qed.

End Splitting.

(** The tokens of [prefix/seg/last]. *)
Lemma fields_two_last prefix seg last :
  Count slash seg = 0 -> Count slash last = 0 ->
  fields slash (prefix +:+ "/" +:+ seg +:+ "/" +:+ last)
  = (fields slash prefix ++ [seg; last])%list.
Proof.
  intros Hs Hl. change ("/" +:+ seg +:+ "/" +:+ last)
    with (String slash (seg +:+ String slash last)).
  rewrite !fields_app, (fields_plain _ seg), (fields_plain _ last); done.
Qed.

(** [getMediatedBDF] on [prefix/seg/last], the prefix holding a "/". *)
Lemma getMediatedBDF_segment prefix seg last :
  1 <= Count slash prefix -> Count slash seg = 0 -> Count slash last = 0 ->
  getMediatedBDF (prefix +:+ "/" +:+ seg +:+ "/" +:+ last) = seg.
Proof.
  intros Hp Hs Hl. unfold getMediatedBDF.
  rewrite SplitN_all_fields, fields_two_last by done.
  pose proof (length_fields slash prefix) as L.
  rewrite length_app. simpl length.
  destruct (Nat.ltb_spec (length (fields slash prefix) + 2) 4); [lia|].
  rewrite lookup_app_r by lia.
  replace (length (fields slash prefix) + 2 - 2 - length (fields slash prefix)) with 0 by lia.
  done.
Qed.

Lemma GetBDF_empty : GetBDF "" = "".
Proof. reflexivity. Qed.

(** *** Group members *)

(** A plain file name joined to the PCI devices path. *)
Lemma Join_devices_plain name :
  Count slash name = 0 -> name <> "" -> name <> "." -> name <> ".." ->
  Join ["/sys/bus/pci/devices"; name] = "/sys/bus/pci/devices/" +:+ name.
Proof.
  intros Hc H1 H2 H3.
  apply String.eqb_neq in H1, H2, H3.
  change (Join ["/sys/bus/pci/devices"; name])
    with (Clean ("/sys/bus/pci/devices" +:+ String slash name)).
  unfold Clean.
  change ("/sys/bus/pci/devices" +:+ String slash name) with
    (String slash ("sys/bus/pci/devices" +:+ String slash name)) at 1.
  cbv iota beta. rewrite Ascii.eqb_refl. cbv zeta.
  rewrite fields_app, (fields_plain _ name Hc).
  change (fields slash "/sys/bus/pci/devices") with ["";"sys";"bus";"pci";"devices"].
  simpl app. cbn -[String.eqb]. rewrite !H1, !H2, !H3. reflexivity.
Qed.

(** C9: for a PCI-normal member [GetVFIODetails] returns the file name
    itself as the BDF, with no truncation, and the PCI devices path joined
    with that name as the sysfs path: for the path /sys/bus/pci/devices and
    a plain name that is the path, "/" and the name. *)
Theorem GetVFIODetails_normal (env : Env) (deviceFileName iommuDevicesPath : string) :
  GetVFIODeviceType env (Join [iommuDevicesPath; deviceFileName])
    = (VFIOPCIDeviceNormalType, None) ->
  GetVFIODetails env deviceFileName iommuDevicesPath
    = (deviceFileName, Join [SysBusPciDevicesPath env; deviceFileName],
       VFIOPCIDeviceNormalType, None) /\
  (SysBusPciDevicesPath env = "/sys/bus/pci/devices" ->
   Count slash deviceFileName = 0 -> deviceFileName <> "" ->
   deviceFileName <> "." -> deviceFileName <> ".." ->
   GetVFIODetails env deviceFileName iommuDevicesPath
    = (deviceFileName, "/sys/bus/pci/devices/" +:+ deviceFileName,
       VFIOPCIDeviceNormalType, None)).
Proof.
  intros Hty.
  assert (GetVFIODetails env deviceFileName iommuDevicesPath
    = (deviceFileName, Join [SysBusPciDevicesPath env; deviceFileName],
       VFIOPCIDeviceNormalType, None)) as E.
  { unfold GetVFIODetails. rewrite Hty. reflexivity. }
  split; [exact E|].
  intros Hp Hc H1 H2 H3. rewrite E, Hp, Join_devices_plain by done. done.
Qed.

Lemma GetVFIODetails_normal_witness :
  GetVFIODetails mdevEnv "0000:02:10.0" groupDir
  = ("0000:02:10.0", "/sys/bus/pci/devices/0000:02:10.0",
     VFIOPCIDeviceNormalType, None).
Proof.
  destruct (GetVFIODetails_normal mdevEnv "0000:02:10.0" groupDir
              ltac:(vm_compute; reflexivity)) as [_ Hplain].
  apply Hplain; first [reflexivity | discriminate].
Defined.

(** C1, as the code has it: for a PCI-mediated member whose resolved path
    is [prefix/seg/last], [getMediatedBDF] yields the second-to-last token
    [seg] and [GetVFIODetails] returns [GetBDF seg], the token without its
    part up to the first ":"; so for
    /sys/devices/pci0000:00/0000:00:02.0/<uuid> the token is "0000:00:02.0"
    and the BDF returned is "00:02.0"; a resolved path of fewer than four
    tokens gives the empty BDF and no error. *)
Theorem GetVFIODetails_mediated (env : Env) (deviceFileName iommuDevicesPath real : string) :
  GetVFIODeviceType env (Join [iommuDevicesPath; deviceFileName])
    = (VFIOPCIDeviceMediatedType, None) ->
  GetSysfsDev env (Join [iommuDevicesPath; deviceFileName]) = (real, None) ->
  (forall prefix seg last,
      1 <= Count slash prefix -> Count slash seg = 0 -> Count slash last = 0 ->
      real = prefix +:+ "/" +:+ seg +:+ "/" +:+ last ->
      getMediatedBDF real = seg /\
      GetVFIODetails env deviceFileName iommuDevicesPath
        = (GetBDF seg, real, VFIOPCIDeviceMediatedType, None)) /\
  (forall uuid,
      Count slash uuid = 0 ->
      real = "/sys/devices/pci0000:00/0000:00:02.0/" +:+ uuid ->
      getMediatedBDF real = "0000:00:02.0" /\
      GetVFIODetails env deviceFileName iommuDevicesPath
        = ("00:02.0", real, VFIOPCIDeviceMediatedType, None)) /\
  (length (SplitN real slash (-1)) < 4 ->
      GetVFIODetails env deviceFileName iommuDevicesPath
        = ("", real, VFIOPCIDeviceMediatedType, None)).
Proof.
  intros Hty Hreal.
  assert (Hdet : GetVFIODetails env deviceFileName iommuDevicesPath
                 = (GetBDF (getMediatedBDF real), real,
                    VFIOPCIDeviceMediatedType, None)).
  { unfold GetVFIODetails. rewrite Hty, Hreal. reflexivity. }
  assert (Hseg : forall prefix seg last,
      1 <= Count slash prefix -> Count slash seg = 0 -> Count slash last = 0 ->
      real = prefix +:+ "/" +:+ seg +:+ "/" +:+ last ->
      getMediatedBDF real = seg).
  { intros prefix seg last Hp Hs Hl ->. by apply getMediatedBDF_segment. }
  split; [|split].
  - intros prefix seg last Hp Hs Hl E.
    rewrite Hdet, (Hseg prefix seg last) by done. done.
  - intros uuid Hu E.
    assert (getMediatedBDF real = "0000:00:02.0") as Hm.
    { apply (Hseg "/sys/devices/pci0000:00" "0000:00:02.0" uuid); try done.
      vm_compute. lia. }
    rewrite Hdet, Hm. done.
  - intros Hlen. rewrite Hdet. unfold getMediatedBDF.
    destruct (Nat.ltb_spec (length (SplitN real slash (-1))) 4); [|lia].
    done.
Qed.

Lemma GetVFIODetails_mediated_witness :
  (getMediatedBDF mdevReal = "0000:00:02.0" /\
   GetVFIODetails mdevEnv mdevName groupDir
     = ("00:02.0", mdevReal, VFIOPCIDeviceMediatedType, None)) /\
  GetVFIODetails shortEnv mdevName groupDir
    = ("", "/sys/devices", VFIOPCIDeviceMediatedType, None).
Proof.
  split.
  - destruct (GetVFIODetails_mediated mdevEnv mdevName groupDir mdevReal
                ltac:(vm_compute; reflexivity) ltac:(vm_compute; reflexivity))
      as (_ & Huuid & _).
    apply (Huuid mdevName); vm_compute; reflexivity.
  - destruct (GetVFIODetails_mediated shortEnv mdevName groupDir "/sys/devices"
                ltac:(vm_compute; reflexivity) ltac:(vm_compute; reflexivity))
      as (_ & _ & Hshort).
    apply Hshort. vm_compute. lia.
Defined.

(** C1 as stated fails: the BDF that [GetVFIODetails] returns for the
    resolved path /sys/devices/pci0000:00/0000:00:02.0/<uuid> is not the
    second-to-last token "0000:00:02.0". *)
Lemma GetVFIODetails_mediated_full_token_fails :
  ~ (forall (env : Env) (deviceFileName iommuDevicesPath uuid : string),
        GetVFIODeviceType env (Join [iommuDevicesPath; deviceFileName])
          = (VFIOPCIDeviceMediatedType, None) ->
        GetSysfsDev env (Join [iommuDevicesPath; deviceFileName])
          = ("/sys/devices/pci0000:00/0000:00:02.0/" +:+ uuid, None) ->
        Count slash uuid = 0 ->
        (GetVFIODetails env deviceFileName iommuDevicesPath).1.1.1 = "0000:00:02.0").
Proof.
  intros H.
  specialize (H mdevEnv mdevName groupDir mdevName
                ltac:(vm_compute; reflexivity) ltac:(vm_compute; reflexivity)
                ltac:(vm_compute; reflexivity)).
  vm_compute in H. discriminate H.
Qed.

(** *** The attach-count gate *)

Lemma bump_keeps_info g attach g' skip err :
  bumpAttachCount g attach = (g', skip, err) -> Info g' = Info g /\ DevID g' = DevID g.
Proof.
  unfold bumpAttachCount. destruct attach.
  - intros [= <- _ _]. done.
  - destruct (AttachCount g); intros [= <- _ _]; done.
Qed.

Lemma bump_attach_real g g' :
  bumpAttachCount g true = (g', false, None) ->
  AttachCount g = 0 /\ bumpAttachCount g' false = (g, false, None).
Proof.
  unfold bumpAttachCount. destruct g as [id info n]. simpl.
  destruct n as [|n]; simpl; intros [= <-]; done.
Qed.

Lemma bump_detach_real g g' :
  bumpAttachCount g false = (g', false, None) ->
  AttachCount g = 1 /\ AttachCount g' = 0 /\
  bumpAttachCount g' true = (g, false, None).
Proof.
  unfold bumpAttachCount. destruct g as [id info n]. simpl.
  destruct n as [|[|n]]; simpl; intros [= <-]; done.
Qed.

Lemma bump_attach_zero g :
  AttachCount g = 0 -> bumpAttachCount g true = (setAttachCount g 1, false, None).
Proof. unfold bumpAttachCount. intros ->. done. Qed.

Lemma bump_attach_skip g :
  AttachCount g <> 0 ->
  bumpAttachCount g true = (setAttachCount g (S (AttachCount g)), true, None).
Proof. unfold bumpAttachCount. destruct (AttachCount g); done. Qed.

(** The deferred bump after a real first bump gives the device back. *)
Lemma compensate_after_real {R} (attach : bool) g0 g (device : VFIODevice)
    (w : World R) e :
  bumpAttachCount g0 attach = (g, false, None) ->
  Generic device = g ->
  compensate (negb attach) device w (Some e)
  = (setGeneric device g0, logCall (CallBump (negb attach)) w, Some e).
Proof.
  intros Hb Hg. unfold compensate. rewrite Hg. destruct attach; cbn [negb].
  - apply bump_attach_real in Hb as [_ ->]. done.
  - apply bump_detach_real in Hb as (_ & _ & ->). done.
Qed.

(** C2: when the first bump of [Attach] or [Detach] went through with
    [skip = false] and the call then returns an error, the last call made
    is the inverse bump and the stored attach count is the one from before
    the call. *)
Theorem compensation_restores_count {R} `{DeviceReceiver R} (env : Env)
    (device : VFIODevice) (w : World R) :
  (forall g device' w' e,
      bumpAttachCount (Generic device) true = (g, false, None) ->
      Attach env device w = Some (device', w', Some e) ->
      (exists mid, calls w' = (calls w ++ CallBump true :: mid ++ [CallBump false])%list) /\
      AttachCount (Generic device') = AttachCount (Generic device)) /\
  (forall g device' w' e,
      bumpAttachCount (Generic device) false = (g, false, None) ->
      Detach env device w = (device', w', Some e) ->
      (exists mid, calls w' = (calls w ++ CallBump false :: mid ++ [CallBump true])%list) /\
      AttachCount (Generic device') = AttachCount (Generic device)).
Proof.
  split.
  - intros g device' w' e Hb. unfold Attach. rewrite Hb. cbv beta iota zeta.
    destruct (GetAllVFIODevicesFromIOMMUGroup env _) as [devs [re|]].
    + rewrite (compensate_after_real true (Generic device) g) by done.
      intros [= <- <- <-]. simpl. split; [|done].
      exists []. by rewrite <- !app_assoc.
    + destruct (assignBuses env devs _) as [[devs' reg]|]; [|done].
      destruct (ColdPlug _).
      * destruct (AppendDevice _ _) as [r [ae|]].
        -- rewrite (compensate_after_real true (Generic device) g) by done.
           intros [= <- <- <-]. simpl. split; [|done].
           exists [CallAppendDevice]. by rewrite <- !app_assoc.
        -- done.
      * destruct (HotplugAddDevice _ _ _) as [r [ae|]].
        -- rewrite (compensate_after_real true (Generic device) g) by done.
           intros [= <- <- <-]. simpl. split; [|done].
           exists [CallHotplugAddDevice]. by rewrite <- !app_assoc.
        -- done.
  - intros g device' w' e Hb. unfold Detach. rewrite Hb. cbv beta iota zeta.
    destruct (ColdPlug _); [done|].
    destruct (HotplugRemoveDevice _ _ _) as [r [ae|]]; [|done].
    rewrite (compensate_after_real false (Generic device) g) by done.
    intros [= <- <- <-]. simpl. split; [|done].
    exists [CallHotplugRemoveDevice]. by rewrite <- !app_assoc.
Qed.

Lemma compensation_restores_count_witness :
  ((exists mid,
      calls {| PCIeDevices := emptyRegistry; receiver := ([] : Script);
               calls := [CallBump true; CallHotplugAddDevice; CallBump false] |}
      = (calls (world0 [Some "hotplug failed"])
         ++ CallBump true :: mid ++ [CallBump false])%list) /\
   AttachCount (Generic (setVfioDevs (NewVFIODevice hotInfo)
                           (GetAllVFIODevicesFromIOMMUGroup pairEnv hotInfo).1))
   = AttachCount (Generic (NewVFIODevice hotInfo))) /\
  ((exists mid,
      calls {| PCIeDevices := emptyRegistry; receiver := ([] : Script);
               calls := [CallBump false; CallHotplugRemoveDevice; CallBump true] |}
      = (calls (world0 [Some "unplug failed"])
         ++ CallBump false :: mid ++ [CallBump true])%list) /\
   AttachCount (Generic (attachedDevice hotInfo []))
   = AttachCount (Generic (attachedDevice hotInfo []))).
Proof.
  split.
  - destruct (compensation_restores_count pairEnv (NewVFIODevice hotInfo)
                (world0 [Some "hotplug failed"])) as [HA _].
    eapply (HA _ _ _ "hotplug failed"); vm_compute; reflexivity.
  - destruct (compensation_restores_count pairEnv (attachedDevice hotInfo [])
                (world0 [Some "unplug failed"])) as [_ HD].
    eapply (HD _ _ _ "unplug failed"); vm_compute; reflexivity.
Defined.

(** *** Detach *)

(** C7: [Detach] of a cold-plugged device whose count reaches zero
    ([skip = false]) returns success; the only call it makes is the bump,
    so the receiver's hotplug-remove is not invoked and the receiver is
    left as it was. *)
Theorem Detach_coldplug {R} `{DeviceReceiver R} (env : Env) (device : VFIODevice)
    (w : World R) (g : GenericDevice) :
  ColdPlug (Info (Generic device)) = true ->
  bumpAttachCount (Generic device) false = (g, false, None) ->
  exists device' w',
    Detach env device w = (device', w', None) /\
    calls w' = (calls w ++ [CallBump false])%list /\
    receiver w' = receiver w /\
    Generic device' = g.
Proof.
  intros Hcold Hb. unfold Detach. rewrite Hb. cbv beta iota zeta.
  destruct (bump_keeps_info _ _ _ _ _ Hb) as [Hinfo _].
  cbn [setGeneric Generic]. rewrite Hinfo, Hcold. cbn [compensate].
  eexists _, _. split; [reflexivity|]. done.
Qed.

Lemma Detach_coldplug_witness :
  exists device' w',
    Detach pairEnv (attachedDevice coldInfo []) (world0 [Some "never asked"])
      = (device', w', None) /\
    calls w' = (calls (world0 [Some "never asked"]) ++ [CallBump false])%list /\
    receiver w' = receiver (world0 [Some "never asked"]) /\
    Generic device' = {| DevID := "dev1"; Info := coldInfo; AttachCount := 0 |}.
Proof.
  apply (Detach_coldplug pairEnv (attachedDevice coldInfo [])
           (world0 [Some "never asked"])
           {| DevID := "dev1"; Info := coldInfo; AttachCount := 0 |});
    reflexivity.
Defined.

(** *** Attach and the members of the group *)

Lemma assignBuses_sameMember env devs reg devs' reg' :
  assignBuses env devs reg = Some (devs', reg') -> Forall2 sameMember devs devs'.
Proof.
  revert reg devs' reg'.
  induction devs as [|[vfio|] rest IH]; intros reg devs' reg'; simpl.
  - intros [= <- <-]. constructor.
  - destruct (IsPCIe vfio).
    + destruct (reg !! Port vfio) as [occupied|]; [|done].
      destruct (assignBuses env rest _) as [[rest' reg'']|] eqn:E; [|done].
      intros [= <- <-]. constructor; [done|]. by eapply IH.
    + destruct (assignBuses env rest reg) as [[rest' reg'']|] eqn:E; [|done].
      intros [= <- <-]. constructor; [by destruct vfio|]. by eapply IH.
  - done.
Qed.

Lemma compensate_inv {R} inverse device (w : World R) err device' w' res :
  compensate inverse device w err = (device', w', res) ->
  VfioDevs device' = VfioDevs device /\ res = err.
Proof.
  unfold compensate. destruct err as [e|].
  - destruct (bumpAttachCount _ _) as [[g skip] berr]. intros [= <- _ <-]. done.
  - intros [= <- _ <-]. done.
Qed.

Lemma sameMember_refl devs : Forall2 sameMember devs devs.
Proof.
  induction devs as [|[x|] rest IH]; constructor; try done. by destruct x.
Qed.

(** C3, as the code has it: a new device holds no member; the first
    [Attach] (attach count 0) stores one entry per member that group
    resolution returned, equal to it but for the bus label, whether
    [Attach] then returns success or an error: the members stay when the
    receiver fails, a failed resolution leaves what it returned, and
    success means that resolution succeeded, so [VfioDevs] is empty
    afterwards exactly when resolution returned no member.  An [Attach]
    that the gate skips returns success and leaves [VfioDevs] as it was. *)
Theorem Attach_VfioDevs {R} `{DeviceReceiver R} (env : Env) (device : VFIODevice)
    (w : World R) (device' : VFIODevice) (w' : World R) (res : option error) :
  Attach env device w = Some (device', w', res) ->
  (forall info, VfioDevs (NewVFIODevice info) = []) /\
  (AttachCount (Generic device) = 0 ->
   let resolved := GetAllVFIODevicesFromIOMMUGroup env (Info (Generic device)) in
   Forall2 sameMember resolved.1 (VfioDevs device') /\
   (resolved.2 <> None -> VfioDevs device' = resolved.1 /\ res = resolved.2) /\
   (res = None -> resolved.2 = None) /\
   (VfioDevs device' = [] <-> resolved.1 = [])) /\
  (AttachCount (Generic device) <> 0 ->
   res = None /\ VfioDevs device' = VfioDevs device).
Proof.
  intros HA. split; [done|]. split.
  - intros Hzero resolved.
    assert (Forall2 sameMember resolved.1 (VfioDevs device') /\
            (resolved.2 <> None -> VfioDevs device' = resolved.1 /\ res = resolved.2) /\
            (res = None -> resolved.2 = None)) as (Hsame & Herr & Hok).
    { revert HA. unfold Attach.
      rewrite (bump_attach_zero _ Hzero). cbv beta iota zeta.
      change (Info (Generic (setGeneric device (setAttachCount (Generic device) 1))))
        with (Info (Generic device)).
      subst resolved.
      destruct (GetAllVFIODevicesFromIOMMUGroup env (Info (Generic device)))
        as [devs [re|]]; cbn [fst snd].
      - intros HA. apply (inj Some) in HA. apply compensate_inv in HA as [-> ->]. cbn.
        split; [apply sameMember_refl|]. done.
      - destruct (assignBuses env devs _) as [[devs' reg]|] eqn:E; [|done].
        apply assignBuses_sameMember in E.
        destruct (ColdPlug _).
        + destruct (AppendDevice _ _) as [r ae]. intros HA. apply (inj Some) in HA.
          apply compensate_inv in HA as [-> ->]. cbn. done.
        + destruct (HotplugAddDevice _ _ _) as [r ae]. intros HA. apply (inj Some) in HA.
          apply compensate_inv in HA as [-> ->]. cbn. done. }
    split; [done|]. split; [done|]. split; [done|].
    split; intros E.
    + rewrite E in Hsame. by inversion Hsame.
    + rewrite E in Hsame. by inversion Hsame.
  - intros Hpos. revert HA. unfold Attach.
    rewrite (bump_attach_skip _ Hpos). cbv beta iota zeta.
    intros [= <- <- <-]. done.
Qed.

Lemma Attach_VfioDevs_witness :
  Forall2 sameMember (GetAllVFIODevicesFromIOMMUGroup pairEnv hotInfo).1
    (VfioDevs (setVfioDevs (NewVFIODevice hotInfo)
                 (GetAllVFIODevicesFromIOMMUGroup pairEnv hotInfo).1)) /\
  (VfioDevs (setVfioDevs (NewVFIODevice hotInfo)
               (GetAllVFIODevicesFromIOMMUGroup pairEnv hotInfo).1) = [] <->
   (GetAllVFIODevicesFromIOMMUGroup pairEnv hotInfo).1 = []).
Proof.
  destruct (Attach_VfioDevs (H := scriptedReceiver) pairEnv (NewVFIODevice hotInfo)
              (world0 [Some "hotplug failed"])
              (setVfioDevs (NewVFIODevice hotInfo)
                 (GetAllVFIODevicesFromIOMMUGroup pairEnv hotInfo).1)
              {| PCIeDevices := emptyRegistry; receiver := ([] : Script);
                 calls := [CallBump true; CallHotplugAddDevice; CallBump false] |}
              (Some "hotplug failed")
              ltac:(vm_compute; reflexivity)) as (_ & Hfirst & _).
  destruct (Hfirst eq_refl) as (Hsame & _ & _ & Hempty).
  split; assumption.
Defined.

(** C3 as stated fails: an [Attach] on a new device that returns the
    receiver's error leaves [VfioDevs] populated. *)
Lemma Attach_error_leaves_members :
  ~ ((forall R (rcv : DeviceReceiver R) (env : Env) (info : DeviceInfo)
        (w : World R) device' w' e,
        Attach env (NewVFIODevice info) w = Some (device', w', Some e) ->
        VfioDevs device' = []) /\
     (forall R (rcv : DeviceReceiver R) (env : Env) (info : DeviceInfo)
        (w : World R) device' w',
        Attach env (NewVFIODevice info) w = Some (device', w', None) ->
        VfioDevs device' <> [])).
Proof.
  intros [Herr _].
  specialize (Herr Script scriptedReceiver pairEnv hotInfo
                (world0 [Some "hotplug failed"]) _ _ _ eq_refl).
  vm_compute in Herr. discriminate Herr.
Qed.

(** *** PCIe slots *)


(** A BDF recorded for a port stays recorded through the loop. *)
Lemma assignBuses_keeps env devs (reg : gmap PCIePort bitmap) devs' reg' p occupied bdf :
  assignBuses env devs reg = Some (devs', reg') ->
  reg !! p = Some occupied -> occupied !! bdf = Some true ->
  exists occupied', reg' !! p = Some occupied' /\ occupied' !! bdf = Some true.
Proof.
  revert reg devs' reg' occupied.
  induction devs as [|[vfio|] rest IH]; intros reg devs' reg' occupied; simpl.
  - intros [= <- <-] Hr Ho. eauto.
  - destruct (IsPCIe vfio).
    + destruct (reg !! Port vfio) as [occ|] eqn:Hport; [|done].
      destruct (assignBuses env rest _) as [[rest' reg'']|] eqn:E; [|done].
      intros [= <- <-] Hr Ho.
      destruct (decide (Port vfio = p)) as [<-|Hne].
      * eapply (IH _ _ _ (<[BDF vfio := true]> occ) E).
        -- apply lookup_insert_eq.
        -- assert (occ = occupied) as -> by congruence.
           destruct (decide (BDF vfio = bdf)) as [<-|Hb].
           ++ apply lookup_insert_eq.
           ++ by rewrite lookup_insert_ne.
      * eapply (IH _ _ _ occupied E); [|done]. by rewrite lookup_insert_ne.
    + destruct (assignBuses env rest reg) as [[rest' reg'']|] eqn:E; [|done].
      intros [= <- <-] Hr Ho. by eapply IH.
  - done.
Qed.





(** *** Persistence *)

Lemma saveLoop_records devs ds :
  VFIODevs (saveLoop devs ds) = (VFIODevs ds ++ (Some <$> omap id devs))%list.
Proof.
  revert ds. induction devs as [|[d|] rest IH]; intros ds; simpl.
  - by rewrite app_nil_r.
  - rewrite IH. simpl. by rewrite <- app_assoc.
  - apply IH.
Qed.

Lemma Save_records env device :
  VFIODevs (Save env device) = Some <$> omap id (VfioDevs device).
Proof. unfold Save. by rewrite saveLoop_records. Qed.

(** The loop of [Load] on records of listed types, then one of an
    unlisted type, then anything. *)
Lemma loadRecord_listed d :
  Type_ d <> VFIODeviceErrorType -> exists v, loadRecord d = Some v.
Proof. unfold loadRecord. destruct (Type_ d); [done|eauto..]. Qed.

Lemma loadLoop_stops before bad after device logged :
  Forall (fun d => Type_ d <> VFIODeviceErrorType) before ->
  Type_ bad = VFIODeviceErrorType ->
  loadLoop ((Some <$> before) ++ Some bad :: after) device logged
  = Some ({| Generic := Generic device;
             VfioDevs := (VfioDevs device ++ (Some <$> omap loadRecord before))%list |},
          (logged ++ [Errorf "VFIO device type unrecognized"])%list)
    /\ length (omap loadRecord before) = length before.
Proof.
  intros Hb Hbad. revert device.
  induction Hb as [|d before Hd Hb IH]; intros device; cbn -[loadRecord].
  - unfold loadRecord. rewrite Hbad, app_nil_r. by destruct device.
  - destruct (loadRecord_listed d Hd) as [v ->].
    destruct (IH (setVfioDevs device (VfioDevs device ++ [Some v])%list))
      as [IH1 IH2].
    rewrite IH1. cbn. rewrite <- app_assoc. split; [done|]. by f_equal.
Qed.

(** The loop of [Load] on records of listed types only. *)
Lemma loadLoop_all records device logged :
  Forall (fun d => Type_ d <> VFIODeviceErrorType) records ->
  loadLoop (Some <$> records) device logged
  = Some ({| Generic := Generic device;
             VfioDevs := (VfioDevs device ++ (Some <$> omap loadRecord records))%list |},
          logged).
Proof.
  intros Hr. revert device.
  induction Hr as [|d records Hd Hr IH]; intros device; cbn -[loadRecord].
  - rewrite app_nil_r. by destruct device.
  - destruct (loadRecord_listed d Hd) as [v ->].
    rewrite (IH (setVfioDevs device (VfioDevs device ++ [Some v])%list)).
    cbn. by rewrite <- app_assoc.
Qed.

(** C5: a device saved and then loaded.  Two PCI-normal members come back
    in the same order, each with the same ID, type, BDF and sysfs path (and
    equal to the saved member when that one carries no PCIe data); an
    AP-mediated member comes back with its sysfs path populated and its
    BDF empty (its ID is kept, every other field is at its zero value).
    [Load] puts what it reconstructs behind the members the loading device
    holds, so loaded into a device without members the sequence is exactly
    the reconstructed one. *)
Theorem Save_Load_round_trip (env : Env) (device target : VFIODevice) :
  (forall d1 d2,
      VfioDevs device = [Some d1; Some d2] ->
      Type_ d1 = VFIOPCIDeviceNormalType -> Type_ d2 = VFIOPCIDeviceNormalType ->
      exists device' r1 r2,
        Load target (Save env device) = Some (device', []) /\
        VfioDevs device' = (VfioDevs target ++ [Some r1; Some r2])%list /\
        (VfioDevs target = [] -> VfioDevs device' = [Some r1; Some r2]) /\
        (ID r1 = ID d1 /\ Type_ r1 = Type_ d1 /\ BDF r1 = BDF d1 /\
         SysfsDev r1 = SysfsDev d1) /\
        (ID r2 = ID d2 /\ Type_ r2 = Type_ d2 /\ BDF r2 = BDF d2 /\
         SysfsDev r2 = SysfsDev d2) /\
        (IsPCIe d1 = false -> Port d1 = "" -> Bus d1 = "" ->
         IsPCIe d2 = false -> Port d2 = "" -> Bus d2 = "" ->
         r1 = d1 /\ r2 = d2)) /\
  (forall d,
      VfioDevs device = [Some d] -> Type_ d = VFIOAPDeviceMediatedType ->
      exists device' r,
        Load target (Save env device) = Some (device', []) /\
        VfioDevs device' = (VfioDevs target ++ [Some r])%list /\
        (VfioDevs target = [] -> VfioDevs device' = [Some r]) /\
        SysfsDev r = SysfsDev d /\ BDF r = "" /\
        ID r = ID d /\ Type_ r = VFIODeviceErrorType /\
        IsPCIe r = false /\ Port r = "" /\ Bus r = "").
Proof.
  split.
  - intros d1 d2 Hdevs T1 T2. unfold Load.
    rewrite Save_records, Hdevs. cbn [omap list_omap id].
    rewrite loadLoop_all by (repeat constructor; congruence).
    cbn [Generic VfioDevs setGeneric].
    cbn -[loadRecord]. unfold loadRecord. rewrite T1, T2.
    eexists _, _, _. split; [reflexivity|]. split; [reflexivity|].
    split; [by intros ->|]. cbn. do 2 (split; [done|]).
    intros I1 P1 B1 I2 P2 B2.
    destruct d1, d2; simpl in *; subst; done.
  - intros d Hdevs T. unfold Load.
    rewrite Save_records, Hdevs. cbn [omap list_omap id].
    rewrite loadLoop_all by (repeat constructor; congruence).
    cbn [Generic VfioDevs setGeneric].
    cbn -[loadRecord]. unfold loadRecord. rewrite T.
    eexists _, _. split; [reflexivity|]. split; [reflexivity|].
    split; [by intros ->|]. done.
Qed.

Lemma Save_Load_round_trip_witness :
  (exists device' r1 r2,
      Load (NewVFIODevice hotInfo)
        (Save pairEnv (attachedDevice hotInfo
                         [Some (member "vfio-dev00" "0000:02:10.0" false "");
                          Some (member "vfio-dev01" "0000:02:10.1" false "")]))
        = Some (device', []) /\
      VfioDevs device' = [Some r1; Some r2] /\
      r1 = member "vfio-dev00" "0000:02:10.0" false "" /\
      r2 = member "vfio-dev01" "0000:02:10.1" false "") /\
  (exists device' r,
      Load (NewVFIODevice hotInfo)
        (Save pairEnv (attachedDevice hotInfo [Some (apMember "vfio-ap0")]))
        = Some (device', []) /\
      VfioDevs device' = [Some r] /\
      SysfsDev r = SysfsDev (apMember "vfio-ap0") /\ BDF r = "").
Proof.
  split.
  - destruct (Save_Load_round_trip pairEnv
                (attachedDevice hotInfo
                   [Some (member "vfio-dev00" "0000:02:10.0" false "");
                    Some (member "vfio-dev01" "0000:02:10.1" false "")])
                (NewVFIODevice hotInfo)) as [Hpci _].
    destruct (Hpci _ _ eq_refl eq_refl eq_refl)
      as (device' & r1 & r2 & HL & _ & Hv & _ & _ & Heq).
    destruct Heq as [E1 E2]; try reflexivity.
    exists device', r1, r2. split; [exact HL|]. split; [by apply Hv|]. done.
  - destruct (Save_Load_round_trip pairEnv
                (attachedDevice hotInfo [Some (apMember "vfio-ap0")])
                (NewVFIODevice hotInfo)) as [_ Hap].
    destruct (Hap _ eq_refl eq_refl)
      as (device' & r & HL & _ & Hv & Hs & Hb & _).
    exists device', r. split; [exact HL|]. split; [by apply Hv|]. done.
Defined.

(** C6, as the code has it: [Load] has no error result and returns; at a
    record of an unlisted type it logs one error and stops, so that record
    and every record after it are dropped, while the records before it
    are reconstructed, in order. *)
Theorem Load_unrecognized (fresh : VFIODevice) (ds : DeviceState)
    (before : list VFIODev) (bad : VFIODev) (after : list (option VFIODev)) :
  VfioDevs fresh = [] ->
  Forall (fun d => Type_ d <> VFIODeviceErrorType) before ->
  Type_ bad = VFIODeviceErrorType ->
  VFIODevs ds = ((Some <$> before) ++ Some bad :: after)%list ->
  Load fresh ds
  = Some ({| Generic := GenericLoad ds;
             VfioDevs := Some <$> omap loadRecord before |},
          [Errorf "VFIO device type unrecognized"]) /\
  length (omap loadRecord before) = length before.
Proof.
  intros Hfresh Hb Hbad Hds. unfold Load. rewrite Hds.
  destruct (loadLoop_stops before bad after
              (setGeneric fresh (GenericLoad ds)) [] Hb Hbad) as [-> Hlen].
  cbn [Generic VfioDevs setGeneric]. rewrite Hfresh. done.
Qed.

Lemma Load_unrecognized_witness :
  Load (NewVFIODevice hotInfo)
    {| StateID := "dev0"; StateType := "vfio"; StateAttachCount := 1;
       StateInfo := hotInfo;
       VFIODevs := [Some (member "vfio-dev00" "0000:02:10.0" false "");
                    Some zeroVFIODev;
                    Some (member "vfio-dev01" "0000:02:10.1" false "")] |}
  = Some ({| Generic := {| DevID := "dev0"; Info := hotInfo; AttachCount := 1 |};
             VfioDevs := [Some (member "vfio-dev00" "0000:02:10.0" false "")] |},
          [Errorf "VFIO device type unrecognized"]).
Proof.
  apply (Load_unrecognized (NewVFIODevice hotInfo)
           {| StateID := "dev0"; StateType := "vfio"; StateAttachCount := 1;
              StateInfo := hotInfo;
              VFIODevs := [Some (member "vfio-dev00" "0000:02:10.0" false "");
                           Some zeroVFIODev;
                           Some (member "vfio-dev01" "0000:02:10.1" false "")] |}
           [member "vfio-dev00" "0000:02:10.0" false ""] zeroVFIODev
           [Some (member "vfio-dev01" "0000:02:10.1" false "")]
           eq_refl ltac:(repeat constructor; discriminate) eq_refl eq_refl).
Defined.

(** C6 as stated fails: a listed record that follows the unlisted one is
    not reconstructed. *)
Lemma Load_drops_later_records :
  ~ (forall (fresh : VFIODevice) (ds : DeviceState)
       (before after : list VFIODev) (bad : VFIODev),
       VfioDevs fresh = [] ->
       Forall (fun d => Type_ d <> VFIODeviceErrorType) before ->
       Forall (fun d => Type_ d <> VFIODeviceErrorType) after ->
       Type_ bad = VFIODeviceErrorType ->
       VFIODevs ds = ((Some <$> before) ++ Some bad :: (Some <$> after))%list ->
       exists device' logged,
         Load fresh ds = Some (device', logged) /\
         VfioDevs device' = Some <$> omap loadRecord (before ++ after)%list).
Proof.
  intros Hall.
  destruct (Hall (NewVFIODevice hotInfo)
              {| StateID := "dev0"; StateType := "vfio"; StateAttachCount := 1;
                 StateInfo := hotInfo;
                 VFIODevs := [Some zeroVFIODev;
                              Some (member "vfio-dev01" "0000:02:10.1" false "")] |}
              [] [member "vfio-dev01" "0000:02:10.1" false ""] zeroVFIODev
              eq_refl ltac:(constructor)
              ltac:(repeat constructor; discriminate) eq_refl eq_refl)
    as (device' & logged & HL & Hv).
  vm_compute in HL. injection HL as <- _. vm_compute in Hv. discriminate Hv.
Qed.

(** *** Host driver rebind *)

(** C4: in [BindDevicetoVFIO] a failed write to the driver's unbind file,
    to [new_id], or a failed resolution of the [iommu_group] link makes the
    call return that error, while the result of the write to vfio-pci's
    bind file is not looked at: when the other steps succeed the call
    returns the group's device node whether or not that write failed.  In
    [BindDevicetoHost] a failure of any of the three writes is returned. *)
Theorem rebind_failures {S} `{Sysfs S} (bdf hostDriver vendorDeviceID : string)
    (h : Host S) :
  let u := write (pciDriverUnbindPath bdf) bdf h in
  let n := write vfioNewIDPath vendorDeviceID u.1 in
  let b := write (pciDriverBindPath "vfio-pci") bdf n.1 in
  let l := Readlink (iommuGroupPath bdf) (sysfs b.1) in
  let r := write vfioRemoveIDPath vendorDeviceID u.1 in
  let hb := write (pciDriverBindPath hostDriver) bdf r.1 in
  (forall e, u.2 = Some e ->
     BindDevicetoVFIO bdf hostDriver vendorDeviceID h = (u.1, ("", Some e))) /\
  (u.2 = None -> forall e, n.2 = Some e ->
     BindDevicetoVFIO bdf hostDriver vendorDeviceID h = (n.1, ("", Some e))) /\
  (u.2 = None -> n.2 = None -> forall e, l.2 = Some e ->
     BindDevicetoVFIO bdf hostDriver vendorDeviceID h = (b.1, ("", Some e))) /\
  (u.2 = None -> n.2 = None -> l.2 = None ->
     BindDevicetoVFIO bdf hostDriver vendorDeviceID h
       = (b.1, (vfioDevPath (Base l.1), None))) /\
  (forall e, u.2 = Some e ->
     BindDevicetoHost bdf hostDriver vendorDeviceID h = (u.1, Some e)) /\
  (u.2 = None -> forall e, r.2 = Some e ->
     BindDevicetoHost bdf hostDriver vendorDeviceID h = (r.1, Some e)) /\
  (u.2 = None -> r.2 = None -> forall e, hb.2 = Some e ->
     BindDevicetoHost bdf hostDriver vendorDeviceID h = (hb.1, Some e)).
Proof.
  intros u n b l r hb. subst u n b l r hb.
  unfold BindDevicetoVFIO, BindDevicetoHost.
  destruct (write (pciDriverUnbindPath bdf) bdf h) as [h1 e1]. cbn [fst snd].
  destruct (write vfioNewIDPath vendorDeviceID h1) as [h2 e2]. cbn [fst snd].
  destruct (write (pciDriverBindPath "vfio-pci") bdf h2) as [h3 e3]. cbn [fst snd].
  destruct (Readlink (iommuGroupPath bdf) (sysfs h3)) as [groupPath e4]. cbn [fst snd].
  destruct (write vfioRemoveIDPath vendorDeviceID h1) as [h5 e5]. cbn [fst snd].
  destruct (write (pciDriverBindPath hostDriver) bdf h5) as [h6 e6]. cbn [fst snd].
  repeat split; intros; subst; done.
Qed.

Lemma rebind_failures_witness :
  (BindDevicetoVFIO "0000:02:10.0" "igb" "8086 10ca"
     (host0 ["/sys/bus/pci/drivers/vfio-pci/bind"])).2
    = ("/dev/vfio/42", None) /\
  (BindDevicetoVFIO "0000:02:10.0" "igb" "8086 10ca"
     (host0 ["/sys/bus/pci/drivers/vfio-pci/new_id"])).2
    = ("", Some "write /sys/bus/pci/drivers/vfio-pci/new_id: permission denied") /\
  (BindDevicetoHost "0000:02:10.0" "igb" "8086 10ca"
     (host0 ["/sys/bus/pci/drivers/igb/bind"])).2
    = Some "write /sys/bus/pci/drivers/igb/bind: permission denied".
Proof.
  split; [|split].
  - pose proof (rebind_failures "0000:02:10.0" "igb" "8086 10ca"
                  (host0 ["/sys/bus/pci/drivers/vfio-pci/bind"]))
      as (_ & _ & _ & Hok & _).
    rewrite Hok; reflexivity.
  - pose proof (rebind_failures "0000:02:10.0" "igb" "8086 10ca"
                  (host0 ["/sys/bus/pci/drivers/vfio-pci/new_id"]))
      as (_ & Hnew & _).
    rewrite (Hnew eq_refl _ eq_refl); reflexivity.
  - pose proof (rebind_failures "0000:02:10.0" "igb" "8086 10ca"
                  (host0 ["/sys/bus/pci/drivers/igb/bind"]))
      as (_ & _ & _ & _ & _ & _ & Hhost).
    rewrite (Hhost eq_refl eq_refl _ eq_refl); reflexivity.
Defined.

(** C10: [BindDevicetoVFIO] does not read [hostDriver]: two calls that
    differ only in it make the same writes, leave the same file system and
    return the same pair. *)
Theorem BindDevicetoVFIO_ignores_hostDriver {S} `{Sysfs S}
    (bdf hostDriver1 hostDriver2 vendorDeviceID : string) (h : Host S) :
  BindDevicetoVFIO bdf hostDriver1 vendorDeviceID h
  = BindDevicetoVFIO bdf hostDriver2 vendorDeviceID h.
Proof. reflexivity. Qed.

(** ** Further properties of the driver *)

(** *** Parsing of addresses *)

Section Cutting.

Variable sep : ascii.

Lemma Cut_plain s : Count sep s = 0 -> Cut sep s = None.
Proof.
  induction s as [|c r IH]; simpl; [done|].
  destruct (Ascii.eqb c sep); [done|]. intros Hc. by rewrite IH.
Qed.

Lemma Cut_app a b : Count sep a = 0 -> Cut sep (a +:+ String sep b) = Some (a, b).
Proof.
  induction a as [|c r IH]; simpl.
  - by rewrite Ascii.eqb_refl.
  - destruct (Ascii.eqb c sep); [done|]. intros Hc. by rewrite IH.
Qed.

Lemma splitLoop_plain n s : Count sep s = 0 -> splitLoop n sep s = [s].
Proof. intros Hc. destruct n; simpl; [done|]. by rewrite Cut_plain. Qed.

Lemma fields_Count s : Forall (fun f => Count sep f = 0) (fields sep s).
Proof.
  induction s as [|c r IH]; simpl.
  - by constructor.
  - destruct (Ascii.eqb c sep) eqn:E; [by constructor|].
    destruct (fields sep r) as [|h t].
    + constructor; [|done]. simpl. by rewrite E.
    + inversion IH as [|? ? Hh Ht]; subst. constructor; [|done].
      simpl. by rewrite E.
Qed.

End Cutting.

Lemma GetBDF_colon_cases :
  (forall dom rest, Count ":"%char dom = 0 -> GetBDF (dom +:+ ":" +:+ rest) = rest) /\
  (forall s, Count ":"%char s = 0 -> GetBDF s = "").
Proof.
  split.
  - intros dom rest Hd. unfold GetBDF, SplitN.
    change (dom +:+ ":" +:+ rest) with (dom +:+ String ":"%char rest).
    cbn [Z.eqb Z.ltb Z.compare]. change (Z.to_nat 2) with 2.
    assert (1 <= String.length (dom +:+ String ":"%char rest)) as Hlen.
    { destruct dom; simpl; lia. }
    destruct (Nat.ltb_spec (String.length (dom +:+ String ":"%char rest) + 1) 2);
      [lia|].
    change (2 - 1) with 1. cbn [splitLoop]. rewrite Cut_app by done. done.
  - intros s Hs. unfold GetBDF, SplitN.
    cbn [Z.eqb Z.ltb Z.compare]. rewrite splitLoop_plain by done. done.
Qed.

Lemma Cut_split (sep : ascii) s a b :
  Cut sep s = Some (a, b) -> s = a +:+ String sep b /\ Count sep a = 0.
Proof.
  revert a. induction s as [|c r IH]; simpl; intros a; [done|].
  destruct (Ascii.eqb c sep) eqn:E.
  - intros [= <- <-]. apply Ascii.eqb_eq in E as ->. done.
  - destruct (Cut sep r) as [[a' b']|]; [|done].
    intros [= <- <-]. destruct (IH a' eq_refl) as [-> Hc].
    simpl. by rewrite E.
Qed.

(** X1: [GetBDF] cuts its argument at the first ":".  Either the argument
    holds no ":" and the result is empty, or the argument is [domain:rest]
    with no ":" in [domain] and the result is [rest], later ":"
    included. *)
Theorem GetBDF_after_first_colon (deviceSysStr : string) :
  (Count ":"%char deviceSysStr = 0 /\ GetBDF deviceSysStr = "") \/
  (exists domain rest,
      deviceSysStr = domain +:+ ":" +:+ rest /\ Count ":"%char domain = 0 /\
      GetBDF deviceSysStr = rest).
Proof.
  destruct GetBDF_colon_cases as [Hcut Hnone].
  destruct (Cut ":"%char deviceSysStr) as [[domain rest]|] eqn:E.
  - right. exists domain, rest. apply Cut_split in E as [-> Hd].
    split; [done|]. split; [done|]. by apply Hcut.
  - left. apply Cut_None in E as [_ Hc]. split; [done|]. by apply Hnone.
Qed.

(** X2: what [getMediatedBDF] returns holds no "/", and it is empty for
    every path with fewer than three "/". *)
Theorem getMediatedBDF_token (deviceSysfsDev : string) :
  Count slash (getMediatedBDF deviceSysfsDev) = 0 /\
  (Count slash deviceSysfsDev < 3 -> getMediatedBDF deviceSysfsDev = "").
Proof.
  unfold getMediatedBDF. rewrite SplitN_all_fields, length_fields.
  split.
  - destruct (S (Count slash deviceSysfsDev) <? 4)%nat; [done|].
    destruct (fields slash deviceSysfsDev !! _) as [x|] eqn:E; [|done].
    cbn [default id].
    exact (proj1 (Forall_lookup (fun f => Count slash f = 0) _)
             (fields_Count slash deviceSysfsDev) _ _ E).
  - intros Hc. destruct (Nat.ltb_spec (S (Count slash deviceSysfsDev)) 4); [done|lia].
Qed.

Lemma getMediatedBDF_token_witness :
  Count slash (getMediatedBDF "/sys/devices") = 0 /\ getMediatedBDF "/sys/devices" = "".
Proof.
  destruct (getMediatedBDF_token "/sys/devices") as [Hno Hshort].
  split; [exact Hno|]. apply Hshort. vm_compute. lia.
Defined.

(** *** Outcomes of [GetVFIODetails] *)

(** X3: [GetVFIODetails] hands back the classifier's type on every path;
    it returns a nil error exactly when the classifier reports no error
    and the type is PCI-normal, or PCI-mediated or AP-mediated with a
    resolver that reports no error; and for an AP-mediated member the BDF
    is empty and the sysfs path is the resolver's. *)
Theorem GetVFIODetails_outcome (env : Env) (deviceFileName iommuDevicesPath : string) :
  let path := Join [iommuDevicesPath; deviceFileName] in
  let r := GetVFIODetails env deviceFileName iommuDevicesPath in
  r.1.2 = (GetVFIODeviceType env path).1 /\
  (r.2 = None <->
   (GetVFIODeviceType env path).2 = None /\
   ((GetVFIODeviceType env path).1 = VFIOPCIDeviceNormalType \/
    (((GetVFIODeviceType env path).1 = VFIOPCIDeviceMediatedType \/
      (GetVFIODeviceType env path).1 = VFIOAPDeviceMediatedType) /\
     (GetSysfsDev env path).2 = None))) /\
  ((GetVFIODeviceType env path) = (VFIOAPDeviceMediatedType, None) ->
   r.1.1.1 = "" /\ r.1.1.2 = (GetSysfsDev env path).1).
Proof.
  intros path r. subst r path. unfold GetVFIODetails.
  destruct (GetVFIODeviceType env _) as [ty [e|]]; cbn [fst snd].
  - split; [done|]. split; [|done]. split; [done|]. intros [? _]. done.
  - destruct ty; cbn [fst snd];
      try destruct (GetSysfsDev env _) as [real [e|]]; cbn [fst snd];
      (split; [done|]); (split; [|done]); split; try done;
      try (intros _; split; [done|]; by eauto);
      intros [_ [?|[[?|?] ?]]]; done.
Qed.

Lemma GetVFIODetails_outcome_witness :
  (GetVFIODetails mdevEnv mdevName groupDir).2 = None /\
  (GetVFIODetails (fakeEnv ∅ []) mdevName groupDir).2 <> None.
Proof.
  split.
  - apply (GetVFIODetails_outcome mdevEnv mdevName groupDir).
    vm_compute. split; [done|]. right. split; [by left|done].
  - intros Hok.
    apply (GetVFIODetails_outcome (fakeEnv ∅ []) mdevName groupDir) in Hok.
    destruct Hok as [Hok _]. vm_compute in Hok. discriminate Hok.
Defined.

(** *** The loop of [Attach] and the slot registry *)

Lemma assignBuses_dom env devs (reg : gmap PCIePort bitmap) devs' reg' :
  assignBuses env devs reg = Some (devs', reg') -> dom reg' = dom reg.
Proof.
  revert reg devs' reg'.
  induction devs as [|[vfio|] rest IH]; intros reg devs' reg'; simpl.
  - by intros [= <- <-].
  - destruct (IsPCIe vfio).
    + destruct (reg !! Port vfio) as [occ|] eqn:Hport; [|done].
      destruct (assignBuses env rest _) as [[rest' reg'']|] eqn:E; [|done].
      intros [= <- <-]. rewrite (IH _ _ _ E). by apply dom_insert_lookup_L.
    + destruct (assignBuses env rest reg) as [[rest' reg'']|] eqn:E; [|done].
      intros [= <- <-]. by eapply IH.
  - done.
Qed.

Lemma assignBuses_completes env devs (reg : gmap PCIePort bitmap) :
  is_Some (assignBuses env devs reg) <-> Forall (wellPlaced (dom reg)) devs.
Proof.
  revert reg. induction devs as [|[vfio|] rest IH]; intros reg; simpl.
  - split; [by constructor|by eauto].
  - rewrite Forall_cons. destruct (IsPCIe vfio) eqn:Hp.
    + destruct (reg !! Port vfio) as [occ|] eqn:Hport.
      * assert (dom (<[Port vfio := <[BDF vfio := true]> occ]> reg) = dom reg) as Hdom.
        { by apply dom_insert_lookup_L. }
        assert (Forall (wellPlaced (dom reg)) rest <->
                is_Some (assignBuses env rest
                           (<[Port vfio := <[BDF vfio := true]> occ]> reg))) as ->.
        { by rewrite IH, Hdom. }
        destruct (assignBuses env rest _) as [[rest' reg'']|].
        -- split; [|by eauto]. intros _. split; [|by eauto].
           intros _. by apply elem_of_dom_2 in Hport.
        -- split; [by intros [? ?]|]. by intros [_ [? ?]].
      * split; [by intros [? ?]|]. intros [Hw _]. simpl in Hw.
        apply not_elem_of_dom in Hport. by specialize (Hw Hp).
    + rewrite <- (IH reg).
      destruct (assignBuses env rest reg) as [[rest' reg'']|].
      * split; [|by eauto]. intros _. split; [simpl; congruence|by eauto].
      * split; [by intros [? ?]|]. by intros [_ [? ?]].
  - split; [by intros [? ?]|]. intros H. by inversion H.
Qed.

Lemma setAttachCount_back g :
  AttachCount g = 0 -> setAttachCount (setAttachCount g 1) 0 = g.
Proof. destruct g as [id info n]. simpl. by intros ->. Qed.

(** A first [Attach] whose resolution and loop go through: the outcome,
    in full. *)
Lemma Attach_real {R} `{DeviceReceiver R} (env : Env) (device : VFIODevice)
    (w : World R) devs devs' reg :
  AttachCount (Generic device) = 0 ->
  GetAllVFIODevicesFromIOMMUGroup env (Info (Generic device)) = (devs, None) ->
  assignBuses env devs (PCIeDevices w) = Some (devs', reg) ->
  let handed := {| Generic := setAttachCount (Generic device) 1; VfioDevs := devs' |} in
  let answer := callReceiver env handed (receiver w) in
  Attach env device w
  = Some ({| Generic := match answer.2 with
                        | Some _ => Generic device
                        | None => setAttachCount (Generic device) 1
                        end;
             VfioDevs := devs' |},
          {| PCIeDevices := reg; receiver := answer.1;
             calls := (calls w ++ CallBump true :: attachCall device ::
                       match answer.2 with
                       | Some _ => [CallBump false]
                       | None => []
                       end)%list |},
          answer.2).
Proof.
  intros Hzero Hres Hloop handed answer. subst answer handed.
  unfold Attach, callReceiver, attachCall.
  rewrite (bump_attach_zero _ Hzero). cbv beta iota zeta.
  change (Info (Generic (setGeneric device (setAttachCount (Generic device) 1))))
    with (Info (Generic device)).
  rewrite Hres. cbv beta iota.
  change (PCIeDevices (logCall (CallBump true) w)) with (PCIeDevices w).
  rewrite Hloop. cbv beta iota zeta.
  change (ColdPlug (Info (Generic (setVfioDevs (setVfioDevs
            (setGeneric device (setAttachCount (Generic device) 1)) devs) devs'))))
    with (ColdPlug (Info (Generic device))).
  change (setVfioDevs (setVfioDevs
            (setGeneric device (setAttachCount (Generic device) 1)) devs) devs')
    with {| Generic := setAttachCount (Generic device) 1; VfioDevs := devs' |}.
  assert (forall (x : World R) e,
    compensate false {| Generic := setAttachCount (Generic device) 1; VfioDevs := devs' |}
      x (Some e)
    = ({| Generic := Generic device; VfioDevs := devs' |},
       logCall (CallBump false) x, Some e)) as Hcomp.
  { intros x e. unfold compensate. simpl.
    by rewrite (setAttachCount_back _ Hzero). }
  cbn [Generic Info setAttachCount].
  destruct (ColdPlug (Info (Generic device))).
  - destruct (AppendDevice _ _) as [r [e|]]; cbn [fst snd].
    + rewrite Hcomp. unfold logCall, setReceiver, setRegistry. simpl.
      rewrite <- ?app_assoc. done.
    + unfold logCall, setReceiver, setRegistry. simpl.
      rewrite <- ?app_assoc. done.
  - destruct (HotplugAddDevice _ _ _) as [r [e|]]; cbn [fst snd].
    + rewrite Hcomp. unfold logCall, setReceiver, setRegistry. simpl.
      rewrite <- ?app_assoc. done.
    + unfold logCall, setReceiver, setRegistry. simpl.
      rewrite <- ?app_assoc. done.
Qed.

Lemma Attach_skipped {R} `{DeviceReceiver R} (env : Env) (device : VFIODevice)
    (w : World R) :
  AttachCount (Generic device) <> 0 ->
  Attach env device w
  = Some (setGeneric device
            (setAttachCount (Generic device) (S (AttachCount (Generic device)))),
          logCall (CallBump true) w, None).
Proof. intros Hpos. unfold Attach. by rewrite (bump_attach_skip _ Hpos). Qed.

Lemma Attach_unresolved {R} `{DeviceReceiver R} (env : Env) (device : VFIODevice)
    (w : World R) devs e :
  AttachCount (Generic device) = 0 ->
  GetAllVFIODevicesFromIOMMUGroup env (Info (Generic device)) = (devs, Some e) ->
  Attach env device w
  = Some ({| Generic := Generic device; VfioDevs := devs |},
          {| PCIeDevices := PCIeDevices w; receiver := receiver w;
             calls := (calls w ++ [CallBump true; CallBump false])%list |},
          Some e).
Proof.
  intros Hzero Hres. unfold Attach.
  rewrite (bump_attach_zero _ Hzero). cbv beta iota zeta.
  change (Info (Generic (setGeneric device (setAttachCount (Generic device) 1))))
    with (Info (Generic device)).
  rewrite Hres. cbv beta iota. unfold compensate. simpl.
  rewrite (setAttachCount_back _ Hzero).
  unfold logCall. simpl. by rewrite <- app_assoc.
Qed.

Lemma Attach_panics {R} `{DeviceReceiver R} (env : Env) (device : VFIODevice)
    (w : World R) devs :
  AttachCount (Generic device) = 0 ->
  GetAllVFIODevicesFromIOMMUGroup env (Info (Generic device)) = (devs, None) ->
  assignBuses env devs (PCIeDevices w) = None ->
  Attach env device w = None.
Proof.
  intros Hzero Hres Hloop. unfold Attach.
  rewrite (bump_attach_zero _ Hzero). cbv beta iota zeta.
  change (Info (Generic (setGeneric device (setAttachCount (Generic device) 1))))
    with (Info (Generic device)).
  rewrite Hres. cbv beta iota.
  change (PCIeDevices (logCall (CallBump true) w)) with (PCIeDevices w).
  by rewrite Hloop.
Qed.

(** X4: a first [Attach] whose group resolution succeeds returns (rather
    than panics) exactly when no resolved member is nil and the port of
    every PCIe member has a set in the registry. *)
Theorem Attach_completes {R} `{DeviceReceiver R} (env : Env) (device : VFIODevice)
    (w : World R) (devs : list (option VFIODev)) :
  AttachCount (Generic device) = 0 ->
  GetAllVFIODevicesFromIOMMUGroup env (Info (Generic device)) = (devs, None) ->
  is_Some (Attach env device w) <->
  Forall (wellPlaced (dom (PCIeDevices w))) devs.
Proof.
  intros Hzero Hres. rewrite <- assignBuses_completes.
  destruct (assignBuses env devs (PCIeDevices w)) as [[devs' reg]|] eqn:E.
  - rewrite (Attach_real env device w devs devs' reg Hzero Hres E), ?E. split; eauto.
  - rewrite (Attach_panics env device w devs Hzero Hres E), ?E.
    split; intros [? ?]; done.
Qed.

Lemma Attach_completes_witness :
  is_Some (Attach pcieEnv (NewVFIODevice hotInfo) (world0 [])) /\
  ~ is_Some (Attach pcieEnv (NewVFIODevice hotInfo)
               {| PCIeDevices := ∅; receiver := ([] : Script); calls := [] |}).
Proof.
  split.
  - apply (Attach_completes (H := scriptedReceiver) pcieEnv (NewVFIODevice hotInfo)
             (world0 []) _ eq_refl eq_refl).
    repeat constructor; intros _; vm_compute; reflexivity.
  - intros Hsome.
    apply (Attach_completes (H := scriptedReceiver) pcieEnv (NewVFIODevice hotInfo)
             _ _ eq_refl eq_refl) in Hsome.
    inversion Hsome as [|? ? Hfirst _]. specialize (Hfirst eq_refl).
    by apply elem_of_dom in Hfirst as [? ?].
Defined.

Lemma Attach_registry {R} `{DeviceReceiver R} (env : Env) (device : VFIODevice)
    (w : World R) device' w' res :
  Attach env device w = Some (device', w', res) ->
  PCIeDevices w' = PCIeDevices w \/
  exists devs',
    assignBuses env (GetAllVFIODevicesFromIOMMUGroup env (Info (Generic device))).1
      (PCIeDevices w) = Some (devs', PCIeDevices w').
Proof.
  destruct (decide (AttachCount (Generic device) = 0)) as [Hzero|Hpos].
  - destruct (GetAllVFIODevicesFromIOMMUGroup env (Info (Generic device)))
      as [devs [e|]] eqn:Hres.
    + rewrite (Attach_unresolved env device w devs e Hzero Hres).
      intros [= <- <- <-]. by left.
    + destruct (assignBuses env devs (PCIeDevices w)) as [[devs' reg]|] eqn:E.
      * rewrite (Attach_real env device w devs devs' reg Hzero Hres E).
        intros [= <- <- <-]. right. by exists devs'.
      * by rewrite (Attach_panics env device w devs Hzero Hres E).
  - rewrite (Attach_skipped env device w Hpos). intros [= <- <- <-]. by left.
Qed.

(** X5: whatever [Attach] returns, the registry afterwards has the same
    ports as before and every BDF that was recorded for a port is still
    recorded: [Attach] adds to the registry and never removes from it. *)
Theorem Attach_registry_grows {R} `{DeviceReceiver R} (env : Env)
    (device : VFIODevice) (w : World R) device' w' res :
  Attach env device w = Some (device', w', res) ->
  dom (PCIeDevices w') = dom (PCIeDevices w) /\
  (forall p occupied bdf,
      PCIeDevices w !! p = Some occupied -> occupied !! bdf = Some true ->
      exists occupied', PCIeDevices w' !! p = Some occupied' /\
                        occupied' !! bdf = Some true).
Proof.
  intros HA. apply Attach_registry in HA as [->|[devs' E]].
  - split; [done|]. eauto.
  - split; [by eapply assignBuses_dom|].
    intros p occupied bdf. by eapply assignBuses_keeps.
Qed.

Lemma Attach_registry_grows_witness :
  dom (<[ "root-port" := {[ "0000:3b:00.0" := true; "0000:3b:00.1" := true;
                            "0000:3b:00.2" := true ]} ]>
         (<[ "switch-port" := {[ "0000:5e:00.0" := true ]} ]> emptyRegistry)
       : gmap PCIePort bitmap)
  = dom emptyRegistry.
Proof.
  refine (proj1 (Attach_registry_grows (H := scriptedReceiver) pcieEnv
                   (NewVFIODevice hotInfo) (world0 [])
                   {| Generic := {| DevID := "dev0"; Info := hotInfo; AttachCount := 1 |};
                      VfioDevs :=
                        [Some (setBus (member "vfio-dev00" "0000:3b:00.0" true "root-port") "rp0");
                         Some (setBus (member "vfio-dev01" "0000:3b:00.1" true "root-port") "rp1");
                         Some (setBus (member "vfio-dev02" "0000:3b:00.2" true "root-port") "rp2");
                         Some (setBus (member "vfio-dev03" "0000:5e:00.0" true "switch-port") "sw0")] |}
                   {| PCIeDevices :=
                        <[ "root-port" := {[ "0000:3b:00.0" := true;
                                             "0000:3b:00.1" := true;
                                             "0000:3b:00.2" := true ]} ]>
                          (<[ "switch-port" := {[ "0000:5e:00.0" := true ]} ]>
                             emptyRegistry);
                      receiver := ([] : Script);
                      calls := [CallBump true; CallHotplugAddDevice] |}
                   None _)).
  vm_compute. reflexivity.
Defined.

Lemma assignBuses_records_all env devs (reg : gmap PCIePort bitmap) devs' reg' :
  assignBuses env devs reg = Some (devs', reg') -> Forall (recorded reg') devs.
Proof.
  revert reg devs' reg'.
  induction devs as [|[vfio|] rest IH]; intros reg devs' reg'; simpl.
  - constructor.
  - destruct (IsPCIe vfio) eqn:Hp.
    + destruct (reg !! Port vfio) as [occ|] eqn:Hport; [|done].
      destruct (assignBuses env rest _) as [[rest' reg'']|] eqn:E; [|done].
      intros [= <- <-]. constructor; [|by eapply IH].
      intros _. eapply (assignBuses_keeps _ _ _ _ _ _ _ _ E); apply lookup_insert_eq.
    + destruct (assignBuses env rest reg) as [[rest' reg'']|] eqn:E; [|done].
      intros [= <- <-]. constructor; [|by eapply IH]. simpl. congruence.
  - done.
Qed.

Lemma assignBuses_recorded env devs (reg : gmap PCIePort bitmap) :
  Forall (recorded reg) devs ->
  assignBuses env devs reg = Some (relabel env reg <$> devs, reg).
Proof.
  induction 1 as [|[vfio|] rest Hd Hrest IH]; simpl; [done| |done].
  destruct (IsPCIe vfio) eqn:Hp.
  - destruct (Hd Hp) as (occ & Hport & Hbdf). rewrite Hport.
    rewrite (insert_id occ _ _ Hbdf), (insert_id reg _ _ Hport), IH. done.
  - by rewrite IH.
Qed.

(** X6: [Attach] tried again after the receiver failed it.  The first
    attempt has recorded every PCIe member in the registry, so the second
    one leaves the registry as it is and labels every PCIe member with its
    port's prefix and the size of the port's set: two PCIe members of one
    port now carry the same bus label. *)
Theorem Attach_retry_same_labels {R} `{DeviceReceiver R} (env : Env)
    (device : VFIODevice) (w : World R) devs device1 w1 e :
  AttachCount (Generic device) = 0 ->
  GetAllVFIODevicesFromIOMMUGroup env (Info (Generic device)) = (devs, None) ->
  Attach env device w = Some (device1, w1, Some e) ->
  exists device2 w2 res2,
    Attach env device1 w1 = Some (device2, w2, res2) /\
    PCIeDevices w2 = PCIeDevices w1 /\
    VfioDevs device2 = relabel env (PCIeDevices w1) <$> devs /\
    (forall v1 v2,
        Some v1 ∈ VfioDevs device2 -> Some v2 ∈ VfioDevs device2 ->
        IsPCIe v1 = true -> IsPCIe v2 = true -> Port v1 = Port v2 ->
        Bus v1 = Bus v2).
Proof.
  intros Hzero Hres HA.
  destruct (assignBuses env devs (PCIeDevices w)) as [[devs' reg]|] eqn:E;
    [|by rewrite (Attach_panics env device w devs Hzero Hres E) in HA].
  rewrite (Attach_real env device w devs devs' reg Hzero Hres E) in HA.
  cbv zeta in HA. apply (inj Some) in HA.
  destruct (callReceiver env _ (receiver w)) as [r [e'|]]; [|done].
  cbn [fst snd] in HA. injection HA as <- <- _.
  pose proof (assignBuses_recorded env devs reg (assignBuses_records_all _ _ _ _ _ E))
    as Hagain.
  eexists _, _, _. split.
  { eapply Attach_real; [exact Hzero|exact Hres|exact Hagain]. }
  cbn [PCIeDevices VfioDevs]. split; [done|]. split; [done|].
  assert (forall v, Some v ∈ relabel env reg <$> devs -> IsPCIe v = true ->
            Bus v = default "" (PCIePortPrefixMapping env !! Port v)
                    +:+ itoa (size (default ∅ (reg !! Port v)))) as Hbus.
  { intros v Hv Hp. apply list_elem_of_fmap in Hv as ([x|] & Hx & _); [|done].
    simpl in Hx. injection Hx as ->.
    destruct (IsPCIe x) eqn:Hpx; [done|]. congruence. }
  intros v1 v2 H1 H2 P1 P2 Hport.
  by rewrite (Hbus v1 H1 P1), (Hbus v2 H2 P2), Hport.
Qed.

Lemma Attach_retry_same_labels_witness :
  exists device2 w2 res2,
    Attach pcieEnv
      {| Generic := Generic (NewVFIODevice hotInfo); VfioDevs := pcieLabelled |}
      {| PCIeDevices := pcieRegistry; receiver := ([] : Script);
         calls := [CallBump true; CallHotplugAddDevice; CallBump false] |}
      = Some (device2, w2, res2) /\
    PCIeDevices w2 = pcieRegistry /\
    VfioDevs device2
      = relabel pcieEnv pcieRegistry
          <$> (GetAllVFIODevicesFromIOMMUGroup pcieEnv hotInfo).1 /\
    (forall v1 v2,
        Some v1 ∈ VfioDevs device2 -> Some v2 ∈ VfioDevs device2 ->
        IsPCIe v1 = true -> IsPCIe v2 = true -> Port v1 = Port v2 ->
        Bus v1 = Bus v2).
Proof.
  apply (Attach_retry_same_labels (H := scriptedReceiver) pcieEnv
           (NewVFIODevice hotInfo) (world0 [Some "hotplug failed"])
           (GetAllVFIODevicesFromIOMMUGroup pcieEnv hotInfo).1
           {| Generic := Generic (NewVFIODevice hotInfo); VfioDevs := pcieLabelled |}
           {| PCIeDevices := pcieRegistry; receiver := ([] : Script);
              calls := [CallBump true; CallHotplugAddDevice; CallBump false] |}
           "hotplug failed" eq_refl eq_refl).
  vm_compute. reflexivity.
Defined.

Lemma assignBuses_plain env devs (reg : gmap PCIePort bitmap) :
  Forall (fun d => exists vfio, d = Some vfio /\ IsPCIe vfio = false) devs ->
  assignBuses env devs reg = Some (devs, reg).
Proof.
  induction 1 as [|d rest (vfio & -> & Hp) Hrest IH]; simpl; [done|].
  by rewrite Hp, IH.
Qed.

(** X7: a first [Attach] of a group without PCIe member does not look
    for a port: with any registry, an empty one included, it returns,
    stores the members exactly as resolved and leaves the registry as it
    was. *)
Theorem Attach_no_pcie {R} `{DeviceReceiver R} (env : Env) (device : VFIODevice)
    (w : World R) (devs : list (option VFIODev)) :
  AttachCount (Generic device) = 0 ->
  GetAllVFIODevicesFromIOMMUGroup env (Info (Generic device)) = (devs, None) ->
  Forall (fun d => exists vfio, d = Some vfio /\ IsPCIe vfio = false) devs ->
  exists device' w' res,
    Attach env device w = Some (device', w', res) /\
    VfioDevs device' = devs /\
    PCIeDevices w' = PCIeDevices w.
Proof.
  intros Hzero Hres Hplain.
  eexists _, _, _. split.
  { eapply Attach_real; [exact Hzero|exact Hres|by apply assignBuses_plain]. }
  done.
Qed.

Lemma Attach_no_pcie_witness :
  exists device' w' res,
    Attach pairEnv (NewVFIODevice hotInfo)
      {| PCIeDevices := ∅; receiver := ([] : Script); calls := [] |}
      = Some (device', w', res) /\
    VfioDevs device' = (GetAllVFIODevicesFromIOMMUGroup pairEnv hotInfo).1 /\
    PCIeDevices w' = ∅.
Proof.
  apply (Attach_no_pcie (H := scriptedReceiver) pairEnv (NewVFIODevice hotInfo)
           {| PCIeDevices := ∅; receiver := ([] : Script); calls := [] |}
           _ eq_refl eq_refl).
  repeat constructor; eexists; split; reflexivity.
Defined.

(** X8: the calls of one [Attach] that returns.  It bumps the count first
    and then makes at most one receiver call, [AppendDevice] for a
    cold-plug device and [HotplugAddDevice] for any other, never
    [HotplugRemoveDevice]; the inverse bump comes last and only when an
    error is returned. *)
Theorem Attach_calls {R} `{DeviceReceiver R} (env : Env) (device : VFIODevice)
    (w : World R) device' w' res :
  Attach env device w = Some (device', w', res) ->
  exists tail,
    calls w' = (calls w ++ CallBump true :: tail)%list /\
    (tail = [] \/ tail = [CallBump false] \/ tail = [attachCall device] \/
     tail = [attachCall device; CallBump false]) /\
    (res = None -> tail = [] \/ tail = [attachCall device]) /\
    (tail = [] -> receiver w' = receiver w /\ VfioDevs device' = VfioDevs device).
Proof.
  destruct (decide (AttachCount (Generic device) = 0)) as [Hzero|Hpos].
  - destruct (GetAllVFIODevicesFromIOMMUGroup env (Info (Generic device)))
      as [devs [e|]] eqn:Hres.
    + rewrite (Attach_unresolved env device w devs e Hzero Hres).
      intros [= <- <- <-]. exists [CallBump false]. simpl. naive_solver.
    + destruct (assignBuses env devs (PCIeDevices w)) as [[devs' reg]|] eqn:E.
      * rewrite (Attach_real env device w devs devs' reg Hzero Hres E). cbv zeta.
        destruct (callReceiver env _ (receiver w)) as [r [e|]]; cbn [fst snd];
          intros [= <- <- <-]; eexists; (split; [reflexivity|]); naive_solver.
      * by rewrite (Attach_panics env device w devs Hzero Hres E).
  - rewrite (Attach_skipped env device w Hpos). intros [= <- <- <-].
    exists []. simpl. naive_solver.
Qed.

Lemma Attach_calls_witness :
  exists tail,
    calls {| PCIeDevices := emptyRegistry; receiver := ([] : Script);
             calls := [CallBump true; CallAppendDevice] |}
      = (calls (world0 []) ++ CallBump true :: tail)%list /\
    (tail = [] \/ tail = [CallBump false] \/
     tail = [attachCall (NewVFIODevice coldInfo)] \/
     tail = [attachCall (NewVFIODevice coldInfo); CallBump false]) /\
    (@None error = None -> tail = [] \/ tail = [attachCall (NewVFIODevice coldInfo)]) /\
    (tail = [] ->
     receiver {| PCIeDevices := emptyRegistry; receiver := ([] : Script);
                 calls := [CallBump true; CallAppendDevice] |}
       = receiver (world0 []) /\
     VfioDevs (attachedDevice coldInfo
                 (GetAllVFIODevicesFromIOMMUGroup pairEnv coldInfo).1)
       = VfioDevs (NewVFIODevice coldInfo)).
Proof.
  apply (Attach_calls (H := scriptedReceiver) pairEnv (NewVFIODevice coldInfo)
           (world0 [])
           (attachedDevice coldInfo (GetAllVFIODevicesFromIOMMUGroup pairEnv coldInfo).1)
           {| PCIeDevices := emptyRegistry; receiver := ([] : Script);
              calls := [CallBump true; CallAppendDevice] |}
           None).
  vm_compute. reflexivity.
Defined.

(** X9: when group resolution fails on a first [Attach], that error is
    what [Attach] returns; the receiver is not called, the registry is
    not touched and the attach count is back at zero. *)
Theorem Attach_resolution_failure {R} `{DeviceReceiver R} (env : Env)
    (device : VFIODevice) (w : World R) devs e :
  AttachCount (Generic device) = 0 ->
  GetAllVFIODevicesFromIOMMUGroup env (Info (Generic device)) = (devs, Some e) ->
  exists device' w',
    Attach env device w = Some (device', w', Some e) /\
    receiver w' = receiver w /\
    PCIeDevices w' = PCIeDevices w /\
    calls w' = (calls w ++ [CallBump true; CallBump false])%list /\
    AttachCount (Generic device') = 0.
Proof.
  intros Hzero Hres.
  rewrite (Attach_unresolved env device w devs e Hzero Hres).
  eexists _, _. split; [reflexivity|]. done.
Qed.

Lemma Attach_resolution_failure_witness :
  exists device' w',
    Attach unreadableEnv (NewVFIODevice hotInfo) (world0 [Some "not asked"])
      = Some (device', w',
              Some "open /sys/kernel/iommu_groups/7/devices: no such file or directory") /\
    receiver w' = receiver (world0 [Some "not asked"]) /\
    PCIeDevices w' = PCIeDevices (world0 [Some "not asked"]) /\
    calls w' = (calls (world0 [Some "not asked"])
                ++ [CallBump true; CallBump false])%list /\
    AttachCount (Generic device') = 0.
Proof.
  apply (Attach_resolution_failure (H := scriptedReceiver) unreadableEnv
           (NewVFIODevice hotInfo) (world0 [Some "not asked"]) [] _ eq_refl eq_refl).
Defined.

(** *** What [Detach] leaves alone *)

(** X10: whatever [Detach] returns, the members of the device and the
    slot registry are as before: a detached group keeps its slots.  After
    the bump [Detach] makes at most one receiver call, which is
    [HotplugRemoveDevice], followed by the inverse bump only; a cold-plug
    device makes none, and without a call the receiver is unchanged. *)
Theorem Detach_leaves {R} `{DeviceReceiver R} (env : Env) (device : VFIODevice)
    (w : World R) device' w' res :
  Detach env device w = (device', w', res) ->
  VfioDevs device' = VfioDevs device /\
  PCIeDevices w' = PCIeDevices w /\
  exists tail,
    calls w' = (calls w ++ CallBump false :: tail)%list /\
    (tail = [] \/ tail = [CallHotplugRemoveDevice] \/
     tail = [CallHotplugRemoveDevice; CallBump true]) /\
    (ColdPlug (Info (Generic device)) = true -> tail = []) /\
    (tail = [] -> receiver w' = receiver w).
Proof.
  unfold Detach.
  destruct (bumpAttachCount (Generic device) false) as [[g skip] err] eqn:Hb.
  destruct (bump_keeps_info _ _ _ _ _ Hb) as [Hinfo _].
  destruct err as [e|].
  { intros [= <- <- <-]. do 2 (split; [done|]). exists []. naive_solver. }
  destruct skip.
  { intros [= <- <- <-]. do 2 (split; [done|]). exists []. naive_solver. }
  cbn [Generic setGeneric]. rewrite Hinfo.
  destruct (ColdPlug (Info (Generic device))).
  { cbn [compensate]. intros [= <- <- <-]. do 2 (split; [done|]).
    exists []. naive_solver. }
  destruct (HotplugRemoveDevice _ _ _) as [r [e|]]; unfold compensate.
  - destruct (bumpAttachCount _ true) as [[g' skip'] err'].
    intros [= <- <- <-]. do 2 (split; [done|]).
    exists [CallHotplugRemoveDevice; CallBump true]. simpl.
    rewrite <- !app_assoc. naive_solver.
  - intros [= <- <- <-]. do 2 (split; [done|]).
    exists [CallHotplugRemoveDevice]. simpl.
    rewrite <- !app_assoc. naive_solver.
Qed.

Lemma Detach_leaves_witness :
  VfioDevs (setVfioDevs (NewVFIODevice hotInfo) pcieLabelled) = pcieLabelled /\
  pcieRegistry = pcieRegistry /\
  exists tail,
    [CallBump false; CallHotplugRemoveDevice] = ([] ++ CallBump false :: tail)%list /\
    (tail = [] \/ tail = [CallHotplugRemoveDevice] \/
     tail = [CallHotplugRemoveDevice; CallBump true]) /\
    (false = true -> tail = []) /\
    (tail = [] -> ([] : Script) = []).
Proof.
  apply (Detach_leaves (H := scriptedReceiver) pcieEnv
           (attachedDevice hotInfo pcieLabelled)
           {| PCIeDevices := pcieRegistry; receiver := ([] : Script); calls := [] |}
           (setVfioDevs (NewVFIODevice hotInfo) pcieLabelled)
           {| PCIeDevices := pcieRegistry; receiver := ([] : Script);
              calls := [CallBump false; CallHotplugRemoveDevice] |}
           None).
  vm_compute. reflexivity.
Defined.

(** *** What [Save] writes and what [Load] keeps *)

Lemma saveLoop_tag devs ds : StateType (saveLoop devs ds) = StateType ds.
Proof.
  revert ds. induction devs as [|[d|] rest IH]; intros ds; simpl; [done| |done].
  by rewrite IH.
Qed.

Lemma omap_id_Some (vs : list VFIODev) : omap id (Some <$> vs) = vs.
Proof. induction vs as [|v vs IH]; [done|]. cbn. f_equal. exact IH. Qed.

Lemma length_omap_id (devs : list (option VFIODev)) :
  length (omap id devs) <= length devs.
Proof.
  induction devs as [|[d|] rest IH]; [done|..]; cbn in *; lia.
Qed.

(** X11: [Save] tags the state with the device type and records the
    members that are not nil, in their order and unchanged; so it records
    at most as many members as the device holds, and all of them when none
    is nil. *)
Theorem Save_members (env : Env) (device : VFIODevice) :
  StateType (Save env device) = DeviceType env device /\
  VFIODevs (Save env device) = Some <$> omap id (GetDeviceInfo device) /\
  length (VFIODevs (Save env device)) <= length (GetDeviceInfo device) /\
  (forall vs, GetDeviceInfo device = Some <$> vs ->
              VFIODevs (Save env device) = GetDeviceInfo device).
Proof.
  unfold GetDeviceInfo, DeviceType. split; [|split; [|split]].
  - unfold Save. by rewrite saveLoop_tag.
  - apply Save_records.
  - rewrite Save_records, length_fmap. apply length_omap_id.
  - intros vs Hvs. rewrite Save_records, Hvs. f_equal. apply omap_id_Some.
Qed.

Lemma omap_loadRecord_length records :
  Forall (fun d => Type_ d <> VFIODeviceErrorType) records ->
  length (omap loadRecord records) = length records.
Proof.
  induction 1 as [|d records Hd Hr IH]; cbn -[loadRecord]; [done|].
  destruct (loadRecord_listed d Hd) as [v ->]. simpl. by rewrite IH.
Qed.

(** X12: [Load] does not clear the members of the device it is called
    on: for records of the listed types it returns without logging, with
    the members held before in front and one reconstructed member per
    record behind them, in the order of the records. *)
Theorem Load_appends (device : VFIODevice) (ds : DeviceState)
    (records : list VFIODev) :
  VFIODevs ds = Some <$> records ->
  Forall (fun d => Type_ d <> VFIODeviceErrorType) records ->
  exists loaded,
    Load device ds
    = Some ({| Generic := GenericLoad ds;
               VfioDevs := (VfioDevs device ++ (Some <$> loaded))%list |}, []) /\
    loaded = omap loadRecord records /\
    length loaded = length records.
Proof.
  intros Hds Hall. exists (omap loadRecord records).
  unfold Load. rewrite Hds, loadLoop_all by done.
  split; [done|]. split; [done|]. by apply omap_loadRecord_length.
Qed.

Lemma Load_appends_witness :
  exists loaded,
    Load (attachedDevice hotInfo (GetAllVFIODevicesFromIOMMUGroup pairEnv hotInfo).1)
      (Save pairEnv
         (attachedDevice hotInfo (GetAllVFIODevicesFromIOMMUGroup pairEnv hotInfo).1))
    = Some ({| Generic := GenericLoad
                 (Save pairEnv
                    (attachedDevice hotInfo
                       (GetAllVFIODevicesFromIOMMUGroup pairEnv hotInfo).1));
               VfioDevs := ((GetAllVFIODevicesFromIOMMUGroup pairEnv hotInfo).1
                            ++ (Some <$> loaded))%list |}, []) /\
    loaded = omap loadRecord
               [member "vfio-dev00" "0000:02:10.0" false "";
                member "vfio-dev01" "0000:02:10.1" false ""] /\
    length loaded = 2.
Proof.
  apply (Load_appends
           (attachedDevice hotInfo (GetAllVFIODevicesFromIOMMUGroup pairEnv hotInfo).1)
           (Save pairEnv
              (attachedDevice hotInfo
                 (GetAllVFIODevicesFromIOMMUGroup pairEnv hotInfo).1))
           [member "vfio-dev00" "0000:02:10.0" false "";
            member "vfio-dev01" "0000:02:10.1" false ""]
           eq_refl).
  repeat constructor; discriminate.
Defined.

Lemma loadRecord_PCI d :
  isPCI d -> exists v, loadRecord d = Some v /\ isPCI v /\ loadRecord v = Some v.
Proof.
  unfold isPCI, loadRecord. intros [T|T]; rewrite T; eexists; simpl; eauto.
Qed.

Lemma omap_loadRecord_PCI vs :
  Forall isPCI vs ->
  Forall isPCI (omap loadRecord vs) /\
  omap loadRecord (omap loadRecord vs) = omap loadRecord vs.
Proof.
  induction 1 as [|d vs Hd Hvs [IH1 IH2]]; cbn -[loadRecord]; [done|].
  destruct (loadRecord_PCI d Hd) as (v & -> & Hv & Hvv).
  cbn -[loadRecord]. rewrite Hvv. cbn -[loadRecord]. rewrite IH2.
  split; [by constructor|done].
Qed.

Lemma isPCI_listed vs :
  Forall isPCI vs -> Forall (fun d => Type_ d <> VFIODeviceErrorType) vs.
Proof.
  intros Hv. eapply Forall_impl; [exact Hv|].
  unfold isPCI. intros d [T|T]; congruence.
Qed.

Lemma Load_fresh_listed (fresh : VFIODevice) (ds : DeviceState) records :
  VfioDevs fresh = [] ->
  VFIODevs ds = Some <$> records ->
  Forall (fun d => Type_ d <> VFIODeviceErrorType) records ->
  Load fresh ds
  = Some ({| Generic := GenericLoad ds;
             VfioDevs := Some <$> omap loadRecord records |}, []).
Proof.
  intros Hfresh Hds Hall. unfold Load. rewrite Hds, loadLoop_all by done.
  cbn [Generic VfioDevs setGeneric]. by rewrite Hfresh.
Qed.

(** X13: for a device whose members are all of the two PCI types, a
    second round trip through [Save] and [Load] changes nothing: the
    members that come back from the first are exactly the members that
    come back when these are saved and loaded again. *)
Theorem Save_Load_twice (env : Env) (device fresh : VFIODevice)
    (vs : list VFIODev) :
  VfioDevs fresh = [] ->
  VfioDevs device = Some <$> vs ->
  Forall isPCI vs ->
  exists once twice,
    Load fresh (Save env device) = Some (once, []) /\
    Load fresh (Save env once) = Some (twice, []) /\
    VfioDevs twice = VfioDevs once /\
    length (VfioDevs once) = length (VfioDevs device).
Proof.
  intros Hfresh Hdev Hpci.
  destruct (omap_loadRecord_PCI vs Hpci) as [Hpci1 Hidem].
  pose proof (Load_fresh_listed fresh (Save env device) vs Hfresh) as HL1.
  rewrite Save_records, Hdev in HL1.
  specialize (HL1 (f_equal (fmap Some) (omap_id_Some vs)) (isPCI_listed _ Hpci)).
  pose proof (Load_fresh_listed fresh
                (Save env {| Generic := GenericLoad (Save env device);
                             VfioDevs := Some <$> omap loadRecord vs |})
                (omap loadRecord vs) Hfresh) as HL2.
  rewrite Save_records in HL2. cbn [VfioDevs] in HL2.
  specialize (HL2 (f_equal (fmap Some) (omap_id_Some _)) (isPCI_listed _ Hpci1)).
  eexists _, _. split; [exact HL1|]. split; [exact HL2|].
  cbn [VfioDevs]. rewrite Hidem. split; [done|].
  rewrite Hdev, !length_fmap. by apply omap_loadRecord_length, isPCI_listed.
Qed.

Lemma Save_Load_twice_witness :
  exists once twice,
    Load (NewVFIODevice hotInfo)
      (Save pcieEnv (attachedDevice hotInfo pcieLabelled)) = Some (once, []) /\
    Load (NewVFIODevice hotInfo) (Save pcieEnv once) = Some (twice, []) /\
    VfioDevs twice = VfioDevs once /\
    length (VfioDevs once) = length (VfioDevs (attachedDevice hotInfo pcieLabelled)).
Proof.
  apply (Save_Load_twice pcieEnv (attachedDevice hotInfo pcieLabelled)
           (NewVFIODevice hotInfo)
           [setBus (member "vfio-dev00" "0000:3b:00.0" true "root-port") "rp0";
            setBus (member "vfio-dev01" "0000:3b:00.1" true "root-port") "rp1";
            setBus (member "vfio-dev02" "0000:3b:00.2" true "root-port") "rp2";
            setBus (member "vfio-dev03" "0000:5e:00.0" true "switch-port") "sw0"]
           eq_refl eq_refl).
  repeat constructor; by left.
Defined.

(** *** The writes of the rebind functions *)

(** X14: the writes that [BindDevicetoVFIO] makes are the first one, two
    or three of: the BDF to the driver's unbind file, the vendor and device
    ID to [new_id], the BDF to vfio-pci's bind file, in this order and
    after the writes made before; a call that returns no error has made
    all three.  [BindDevicetoHost] likewise with the BDF to the unbind
    file, the ID to [remove_id] and the BDF to the host driver's bind
    file. *)
Theorem rebind_writes_in_order {S} `{Sysfs S} (bdf hostDriver vendorDeviceID : string)
    (h : Host S) :
  (exists k,
      1 <= k <= 3 /\
      writes (BindDevicetoVFIO bdf hostDriver vendorDeviceID h).1
        = (writes h ++ take k (claimWrites bdf vendorDeviceID))%list /\
      ((BindDevicetoVFIO bdf hostDriver vendorDeviceID h).2.2 = None -> k = 3)) /\
  (exists k,
      1 <= k <= 3 /\
      writes (BindDevicetoHost bdf hostDriver vendorDeviceID h).1
        = (writes h ++ take k (releaseWrites bdf hostDriver vendorDeviceID))%list /\
      ((BindDevicetoHost bdf hostDriver vendorDeviceID h).2 = None -> k = 3)).
Proof.
  unfold BindDevicetoVFIO, BindDevicetoHost, claimWrites, releaseWrites, write.
  destruct (WriteToFile (pciDriverUnbindPath bdf) bdf (sysfs h)) as [s1 [e1|]];
    cbn [sysfs writes].
  { split; exists 1; cbn; (split; [lia|]); done. }
  split.
  - destruct (WriteToFile vfioNewIDPath vendorDeviceID s1) as [s2 [e2|]];
      cbn [sysfs writes].
    { exists 2. cbn. rewrite <- app_assoc. split; [lia|]. done. }
    destruct (WriteToFile (pciDriverBindPath "vfio-pci") bdf s2) as [s3 e3];
      cbn [sysfs writes].
    destruct (Readlink (iommuGroupPath bdf) s3) as [groupPath [e4|]];
      exists 3; cbn; rewrite <- !app_assoc; (split; [lia|]); done.
  - destruct (WriteToFile vfioRemoveIDPath vendorDeviceID s1) as [s2 [e2|]];
      cbn [sysfs writes].
    { exists 2. cbn. rewrite <- app_assoc. split; [lia|]. done. }
    destruct (WriteToFile (pciDriverBindPath hostDriver) bdf s2) as [s3 e3];
      exists 3; cbn; rewrite <- !app_assoc; (split; [lia|]); done.
Qed.

Lemma rebind_writes_in_order_witness :
  (exists k,
      1 <= k <= 3 /\
      writes (BindDevicetoVFIO "0000:02:10.0" "igb" "8086 10ca"
                (host0 ["/sys/bus/pci/drivers/vfio-pci/new_id"])).1
        = (writes (host0 ["/sys/bus/pci/drivers/vfio-pci/new_id"])
           ++ take k (claimWrites "0000:02:10.0" "8086 10ca"))%list /\
      ((BindDevicetoVFIO "0000:02:10.0" "igb" "8086 10ca"
          (host0 ["/sys/bus/pci/drivers/vfio-pci/new_id"])).2.2 = None -> k = 3)) /\
  (exists k,
      1 <= k <= 3 /\
      writes (BindDevicetoHost "0000:02:10.0" "igb" "8086 10ca"
                (host0 ["/sys/bus/pci/drivers/vfio-pci/new_id"])).1
        = (writes (host0 ["/sys/bus/pci/drivers/vfio-pci/new_id"])
           ++ take k (releaseWrites "0000:02:10.0" "igb" "8086 10ca"))%list /\
      ((BindDevicetoHost "0000:02:10.0" "igb" "8086 10ca"
          (host0 ["/sys/bus/pci/drivers/vfio-pci/new_id"])).2 = None -> k = 3)).
Proof.
  exact (rebind_writes_in_order "0000:02:10.0" "igb" "8086 10ca"
           (host0 ["/sys/bus/pci/drivers/vfio-pci/new_id"])).
Defined.

Lemma stripTrailingSlashes_plain s :
  Count slash s = 0 -> stripTrailingSlashes s = s.
Proof.
  induction s as [|c r IH]; simpl; [done|].
  destruct (Ascii.eqb c slash); [done|]. intros Hc. by rewrite IH.
Qed.

Lemma append_not_empty a c b : String.eqb (a +:+ String c b) "" = false.
Proof. by destruct a. Qed.

Lemma stripTrailingSlashes_keep a name :
  name <> "" -> Count slash name = 0 ->
  stripTrailingSlashes (a +:+ String slash name) = a +:+ String slash name.
Proof.
  intros Hne Hc. induction a as [|c r IH]; simpl.
  - rewrite stripTrailingSlashes_plain by done.
    apply String.eqb_neq in Hne. by rewrite Hne.
  - rewrite IH, append_not_empty. by rewrite andb_false_r.
Qed.

(** The last element of a path that does not end in "/". *)
Lemma Base_last prefix name :
  name <> "" -> Count slash name = 0 -> Base (prefix +:+ "/" +:+ name) = name.
Proof.
  intros Hne Hc. unfold Base.
  change (prefix +:+ "/" +:+ name) with (prefix +:+ String slash name).
  rewrite stripTrailingSlashes_keep, !append_not_empty by done.
  rewrite fields_app, (fields_plain _ name Hc). apply List.last_last.
Qed.

(** X15: when [BindDevicetoVFIO] returns no error, the path it returns is
    /dev/vfio/ followed by the last element of the target of the device's
    [iommu_group] link, read after the three writes.  *)
Theorem BindDevicetoVFIO_node {S} `{Sysfs S} (bdf hostDriver vendorDeviceID : string)
    (h h' : Host S) (node prefix group : string) :
  BindDevicetoVFIO bdf hostDriver vendorDeviceID h = (h', (node, None)) ->
  (Readlink (iommuGroupPath bdf) (sysfs h')).1 = prefix +:+ "/" +:+ group ->
  group <> "" -> Count slash group = 0 ->
  node = "/dev/vfio/" +:+ group /\
  writes h' = (writes h ++ claimWrites bdf vendorDeviceID)%list.
Proof.
  unfold BindDevicetoVFIO, claimWrites, write.
  destruct (WriteToFile (pciDriverUnbindPath bdf) bdf (sysfs h)) as [s1 [e1|]];
    [done|]. cbn [sysfs writes].
  destruct (WriteToFile vfioNewIDPath vendorDeviceID s1) as [s2 [e2|]];
    [done|]. cbn [sysfs writes].
  destruct (WriteToFile (pciDriverBindPath "vfio-pci") bdf s2) as [s3 e3].
  cbn [sysfs writes].
  destruct (Readlink (iommuGroupPath bdf) s3) as [groupPath [e4|]] eqn:Hlink;
    [done|].
  intros [= <- <-]. cbn [sysfs writes]. rewrite Hlink. cbn [fst].
  intros -> Hne Hc. rewrite Base_last by done.
  split; [done|]. by rewrite <- !app_assoc.
Qed.

Lemma BindDevicetoVFIO_node_witness :
  "/dev/vfio/42" = "/dev/vfio/" +:+ "42" /\
  writes (BindDevicetoVFIO "0000:02:10.0" "igb" "8086 10ca"
            (host0 ["/sys/bus/pci/drivers/vfio-pci/bind"])).1
  = (writes (host0 ["/sys/bus/pci/drivers/vfio-pci/bind"])
     ++ claimWrites "0000:02:10.0" "8086 10ca")%list.
Proof.
  apply (BindDevicetoVFIO_node "0000:02:10.0" "igb" "8086 10ca"
           (host0 ["/sys/bus/pci/drivers/vfio-pci/bind"]) _ "/dev/vfio/42"
           "../../../kernel/iommu_groups" "42");
    first [reflexivity | discriminate | vm_compute; reflexivity].
Defined.

(** *** The BDF of a mediated member *)

(** X16: for a PCI-mediated member resolved to [prefix/parent/last], the
    BDF that [GetVFIODetails] returns is the parent's name without its
    first ":"-field: for a parent [domain:rest] it is [rest], whatever the
    domain, and for a parent whose name holds no ":" it is empty, with no
    error. *)
Theorem GetVFIODetails_mediated_parent (env : Env)
    (deviceFileName iommuDevicesPath prefix parent last : string) :
  GetVFIODeviceType env (Join [iommuDevicesPath; deviceFileName])
    = (VFIOPCIDeviceMediatedType, None) ->
  GetSysfsDev env (Join [iommuDevicesPath; deviceFileName])
    = (prefix +:+ "/" +:+ parent +:+ "/" +:+ last, None) ->
  1 <= Count slash prefix -> Count slash parent = 0 -> Count slash last = 0 ->
  (forall domain rest,
      parent = domain +:+ ":" +:+ rest -> Count ":"%char domain = 0 ->
      GetVFIODetails env deviceFileName iommuDevicesPath
      = (rest, prefix +:+ "/" +:+ parent +:+ "/" +:+ last,
         VFIOPCIDeviceMediatedType, None)) /\
  (Count ":"%char parent = 0 ->
   GetVFIODetails env deviceFileName iommuDevicesPath
   = ("", prefix +:+ "/" +:+ parent +:+ "/" +:+ last,
      VFIOPCIDeviceMediatedType, None)).
Proof.
  intros Hty Hreal Hp Hs Hl.
  assert (GetVFIODetails env deviceFileName iommuDevicesPath
          = (GetBDF parent, prefix +:+ "/" +:+ parent +:+ "/" +:+ last,
             VFIOPCIDeviceMediatedType, None)) as ->.
  { unfold GetVFIODetails. rewrite Hty, Hreal.
    by rewrite getMediatedBDF_segment. }
  destruct GetBDF_colon_cases as [Hcut Hnone]. split.
  - intros domain rest -> Hd. by rewrite Hcut.
  - intros Hc. by rewrite Hnone.
Qed.

Lemma GetVFIODetails_mediated_parent_witness :
  GetVFIODetails
    (fakeEnv {[ "/sys/kernel/iommu_groups/7/devices/f79944e4-5a3d-11e8-99ce-479cbab002e4"
                := "/sys/devices/virtual/mtty/mtty/f79944e4-5a3d-11e8-99ce-479cbab002e4" ]} [])
    mdevName groupDir
  = ("", "/sys/devices/virtual/mtty" +:+ "/" +:+ "mtty" +:+ "/" +:+ mdevName,
     VFIOPCIDeviceMediatedType, None).
Proof.
  refine (proj2 (GetVFIODetails_mediated_parent _ mdevName groupDir
                   "/sys/devices/virtual/mtty" "mtty" mdevName _ _ _ _ _) _);
    first [reflexivity | vm_compute; reflexivity | vm_compute; lia].
Defined.

(** *** What the receiver is handed *)

(** X17: on a first [Attach] whose resolution and loop go through, the
    receiver is called once, after the loop: the device it is handed
    already holds the members with their bus labels and the bumped count,
    and [Attach] returns the receiver's verdict and keeps the receiver's
    new state and these members. *)
Theorem Attach_hands_labelled {R} `{DeviceReceiver R} (env : Env)
    (device : VFIODevice) (w : World R) devs devs' reg :
  AttachCount (Generic device) = 0 ->
  GetAllVFIODevicesFromIOMMUGroup env (Info (Generic device)) = (devs, None) ->
  assignBuses env devs (PCIeDevices w) = Some (devs', reg) ->
  exists handed device' w',
    Attach env device w
      = Some (device', w', (callReceiver env handed (receiver w)).2) /\
    receiver w' = (callReceiver env handed (receiver w)).1 /\
    VfioDevs handed = devs' /\ VfioDevs device' = devs' /\
    AttachCount (Generic handed) = 1 /\
    Forall2 sameMember devs devs'.
Proof.
  intros Hzero Hres Hloop.
  eexists _, _, _. split.
  { apply (Attach_real env device w devs devs' reg Hzero Hres Hloop). }
  cbn. do 4 (split; [done|]). by eapply assignBuses_sameMember.
Qed.

Lemma Attach_hands_labelled_witness :
  exists handed device' w',
    Attach pcieEnv (NewVFIODevice hotInfo) (world0 [Some "hotplug failed"])
      = Some (device', w',
              (callReceiver pcieEnv handed
                 (receiver (world0 [Some "hotplug failed"]))).2) /\
    receiver w'
      = (callReceiver pcieEnv handed (receiver (world0 [Some "hotplug failed"]))).1 /\
    VfioDevs handed = pcieLabelled /\ VfioDevs device' = pcieLabelled /\
    AttachCount (Generic handed) = 1 /\
    Forall2 sameMember (GetAllVFIODevicesFromIOMMUGroup pcieEnv hotInfo).1 pcieLabelled.
Proof.
  apply (Attach_hands_labelled (H := scriptedReceiver) pcieEnv
           (NewVFIODevice hotInfo) (world0 [Some "hotplug failed"])
           _ pcieLabelled pcieRegistry eq_refl eq_refl).
  vm_compute. reflexivity.
Defined.
